(** * MediaTrack: the per-published-track orchestrator of the SFU

    A shallow embedding of [pkg/rtc/mediatrack.go].  The Go methods of
    [MediaTrack] become functions that take the track state and return the
    new state together with the list of calls they issued to sinks that
    live outside the file (logger, telemetry, buffers, the external
    quality-change handler, teardown calls on the collaborators).
    Embedded are [NewMediaTrack], [OnSubscribedMaxQualityChange] with the
    handler closure it builds, [AddReceiver] with its RTCP and close
    closures, [Restart], [Close] and [SetMuted].  The getters, the
    forwarding methods and the telemetry closures are left out.

    The model is sequential: one method runs to completion before the next
    one starts, so [t.lock] and the atomicity of [numUpTracks] do not
    appear.  Strings are byte strings and case mapping is the ASCII one,
    which is what Go's [strings.ToLower] and [strings.EqualFold] do on
    ASCII input such as mime types. *)

From Stdlib Require Import ZArith Ascii String.
From stdpp Require Import base gmap strings list.

Local Open Scope string_scope.
Local Open Scope list_scope.

(** ** Strings *)

Module Strings.

(** The ASCII case mapping behind [strings.ToLower]. *)
Definition lower (c : ascii) : ascii :=
  let n := nat_of_ascii c in
  if (65 <=? n)%nat && (n <=? 90)%nat then ascii_of_nat (n + 32) else c.

(** [strings.ToLower]. *)
Fixpoint ToLower (s : string) : string :=
  match s with
  | EmptyString => EmptyString
  | String c r => String (lower c) (ToLower r)
  end.

(** [strings.EqualFold]: equality under case folding, rune by rune. *)
Fixpoint EqualFold (s t : string) : bool :=
  match s, t with
  | EmptyString, EmptyString => true
  | String a s', String b t' => Ascii.eqb (lower a) (lower b) && EqualFold s' t'
  | _, _ => false
  end.

End Strings.
Export Strings.

(** ** Protocol objects read by the track *)

Inductive TrackType := TrackType_AUDIO | TrackType_VIDEO | TrackType_DATA.

Inductive VideoQuality := VideoQuality_LOW | VideoQuality_MEDIUM | VideoQuality_HIGH | VideoQuality_OFF.

(** [livekit.SimulcastCodecInfo]: one declared codec of the track. *)
Record SimulcastCodecInfo := {
  MimeType : string;
  Cid : string;
}.

(** [livekit.TrackInfo], the fields the file reads. *)
Record TrackInfo := {
  Sid : string;
  Type_ : TrackType;
  Codecs : list SimulcastCodecInfo;
}.

(** [webrtc.RTPCodecParameters]. *)
Record RTPCodecParameters := {
  cp_MimeType : string;
  cp_PayloadType : Z;
}.

(** [webrtc.RTPReceiver]: what [GetParameters] returns. *)
Record RTPReceiver := {
  rr_Codecs : list RTPCodecParameters;
  rr_HeaderExtensions : list string;
}.

(** [webrtc.TrackRemote]: one incoming encoding. *)
Record TrackRemote := {
  SSRC : Z;
  tr_MimeType : string;
  RID : string;
}.

Record SimulcastTrackInfo := {
  Mid : string;
  Rid : string;
}.

(** [types.SubscribedCodecQuality]. *)
Record SubscribedCodecQuality := {
  CodecMime : string;
  Quality : VideoQuality;
}.

(** [livekit.SubscribedCodec], kept opaque: it is only handed on. *)
Record SubscribedCodec := {
  sc_Codec : string;
  sc_Enabled : list (VideoQuality * bool);
}.

(** ** Codec priority *)

(** The loop of [AddReceiver] that looks the mime up in [ti.Codecs]:
    the index of the first entry that matches, [-1] when none does. *)
Fixpoint findCodecIndex (mime : string) (codecs : list SimulcastCodecInfo) (idx : Z) : Z :=
  match codecs with
  | [] => (-1)%Z
  | c :: rest =>
      if EqualFold mime (MimeType c) then idx
      else findCodecIndex mime rest (idx + 1)%Z
  end.

(** The loop followed by the [switch len(ti.Codecs)] fallback. *)
Definition resolvePriority (mime : string) (codecs : list SimulcastCodecInfo) : Z :=
  let priority := findCodecIndex mime codecs 0 in
  if (priority <? 0)%Z then
    match codecs with
    | [] => 0%Z
    | [c] => if String.eqb (MimeType c) "" then 0%Z else priority
    | _ => priority
    end
  else priority.

(** The two nested loops that intersect the declared codecs with the
    negotiated ones: for every declared codec, the first negotiated codec
    of the same mime. *)
Fixpoint collectPotentialCodecs (codecs : list SimulcastCodecInfo)
    (negotiated : list RTPCodecParameters) : list RTPCodecParameters :=
  match codecs with
  | [] => []
  | c :: rest =>
      match List.find (fun nc => EqualFold (cp_MimeType nc) (MimeType c)) negotiated with
      | Some nc => nc :: collectPotentialCodecs rest negotiated
      | None => collectPotentialCodecs rest negotiated
      end
  end.

(** ** Collaborators

    [MediaTrackReceiver], [DynacastManager], [sfu.WebRTCReceiver] and
    [buffer.Buffer] are declared in other files of the repository.  The
    track only calls their methods; what those methods do to their own
    state is modelled from the specification. *)

(** Modelled from the spec: [sfu.WebRTCReceiver], one negotiated codec
    variant of a track: its codec mime, its ordinal priority, the
    callbacks registered on it, the encodings attached to it and the
    ceiling on the spatial layer it is expected to receive. *)
Record WebRTCReceiver := {
  wr_mime : string;
  wr_priority : Z;
  wr_mid : string;
  wr_rtcpCh : bool;
  wr_onClose : bool;
  wr_onStatsUpdate : bool;
  wr_onMaxLayerChange : bool;
  wr_upTracks : list (TrackRemote * nat);
  wr_maxExpectedSpatialLayer : option Z;
}.

(** Modelled from the spec: [MediaTrackReceiver], the codec receiver
    registry: receivers in registration order, the record of potential
    codecs, the (mime, RID) to SSRC layer map and the lifecycle flags. *)
Record MediaTrackReceiver := {
  trackInfo : TrackInfo;
  receivers : list WebRTCReceiver;
  potentialCodecs : list RTPCodecParameters;
  headerExtensions : list string;
  layerSsrcs : gmap (string * string) Z;
  simulcast : bool;
  muted : bool;
  closing : bool;
  closed : bool;
}.

(** What the quality controller hands to its handler. *)
Record QualityUpdate := {
  subscribedQualities : list SubscribedCodec;
  maxSubscribedQualities : list SubscribedCodecQuality;
}.

(** Modelled from the spec: [DynacastManager], the adaptive quality
    controller: the codecs it tracks, the aggregate demand a recomputation
    would report now, the recomputations queued for emission, the handler
    slot and the closed flag.  The handler slot holds the identity of the
    external function captured by the closure of
    [MediaTrack.OnSubscribedMaxQualityChange] ([None] inside for Go's nil). *)
Record DynacastManager := {
  dm_codecs : list string;
  dm_current : QualityUpdate;
  dm_queue : list QualityUpdate;
  dm_handler : option (option nat);
  dm_closed : bool;
}.

(** Modelled from the spec: [buffer.Buffer], of which only the
    sender-report timing is kept. *)
Record Buffer := {
  lastSenderReport : option (Z * Z);
}.

(** [rtcp.Packet] after decoding, by the cases the consumer tells apart. *)
Inductive RtcpPacket :=
| SourceDescription
| SenderReport (RTPTime NTPTime : Z)
| OtherPacket.

(** ** The track *)

Record MediaTrackParams := {
  SignalCid : string;
  SdpCid : string;
  ParticipantID : string;
  BufferFactory : Z -> option nat * option nat;
  SimTracks : list (Z * SimulcastTrackInfo);
}.

Record MediaTrack := {
  params : MediaTrackParams;
  numUpTracks : Z;
  buffer : option nat;
  mtr : MediaTrackReceiver;
  lossProxy : bool;
  dynacastManager : option DynacastManager;
}.

(** Calls that leave the file: logger, buffer pair, external handler, and
    the lifecycle calls on the two collaborators, in program order. *)
Inductive Event :=
| Log_Errorw (msg : string)
| Log_Warnw (msg : string) (webrtcCodec : string) (track : TrackInfo)
| Log_Debugw (msg : string)
| Rtcp_OnPacket (rtcpReader buff : nat)
| Buffer_Bind (buff : nat) (mime : string)
| Buffer_OnFpsChanged (buff : nat)
| Buffer_OnFinalRtpStats (buff : nat) (mime : string) (layer : Z)
| Buffer_SetSenderReportData (RTPTime NTPTime : Z)
| Receiver_SetMaxExpectedSpatialLayer (mime : string) (layer : Z)
| Registry_SetClosing
| Registry_ClearReceiver (mime : string) (willBeResumed : bool)
| Registry_ClearAllReceivers (willBeResumed : bool)
| Registry_TryClose
| Registry_Close
| Registry_Restart
| Registry_SetMuted (muted : bool)
| Dynacast_AddCodec (mime : string)
| Dynacast_Close
| Dynacast_ForceUpdate
| Dynacast_Restart
| Handler_Call (f : nat) (trackID : string) (u : QualityUpdate).

(** ** The codec receiver registry *)

Module Registry.

Definition set_receivers (l : list WebRTCReceiver) (r : MediaTrackReceiver) : MediaTrackReceiver :=
  {| trackInfo := trackInfo r; receivers := l; potentialCodecs := potentialCodecs r;
     headerExtensions := headerExtensions r; layerSsrcs := layerSsrcs r;
     simulcast := simulcast r; muted := muted r; closing := closing r; closed := closed r |}.

Definition set_layerSsrcs (m : gmap (string * string) Z) (r : MediaTrackReceiver) : MediaTrackReceiver :=
  {| trackInfo := trackInfo r; receivers := receivers r; potentialCodecs := potentialCodecs r;
     headerExtensions := headerExtensions r; layerSsrcs := m;
     simulcast := simulcast r; muted := muted r; closing := closing r; closed := closed r |}.

Definition TrackInfoClone (r : MediaTrackReceiver) : TrackInfo := trackInfo r.

Definition IsSimulcast (r : MediaTrackReceiver) : bool := simulcast r.

Definition IsMuted (r : MediaTrackReceiver) : bool := muted r.

(** Modelled from the spec: [Receiver(mime)], the registered receiver of
    a codec; receivers are keyed by mime, case-insensitively. *)
Definition Receiver (mime : string) (r : MediaTrackReceiver) : option WebRTCReceiver :=
  List.find (fun w => EqualFold (wr_mime w) mime) (receivers r).

(** Modelled from the spec: [PrimaryReceiver()], the first registered
    receiver, nil when there is none. *)
Definition PrimaryReceiver (r : MediaTrackReceiver) : option WebRTCReceiver :=
  head (receivers r).

(** Modelled from the spec: [SetPotentialCodecs], the record of codecs
    that may be published later. *)
Definition SetPotentialCodecs (codecs : list RTPCodecParameters) (exts : list string)
    (r : MediaTrackReceiver) : MediaTrackReceiver :=
  {| trackInfo := trackInfo r; receivers := receivers r; potentialCodecs := codecs;
     headerExtensions := exts; layerSsrcs := layerSsrcs r;
     simulcast := simulcast r; muted := muted r; closing := closing r; closed := closed r |}.

(** Modelled from the spec: [SetupReceiver], which registers a receiver
    with its priority and media id behind the receivers already there. *)
Definition SetupReceiver (w : WebRTCReceiver) (priority : Z) (mid : string)
    (r : MediaTrackReceiver) : MediaTrackReceiver :=
  let w' := {| wr_mime := wr_mime w; wr_priority := priority; wr_mid := mid;
               wr_rtcpCh := wr_rtcpCh w; wr_onClose := wr_onClose w;
               wr_onStatsUpdate := wr_onStatsUpdate w;
               wr_onMaxLayerChange := wr_onMaxLayerChange w;
               wr_upTracks := wr_upTracks w;
               wr_maxExpectedSpatialLayer := wr_maxExpectedSpatialLayer w |} in
  set_receivers (receivers r ++ [w']) r.

(** Modelled from the spec: [SetLayerSsrc], which binds a (mime, RID)
    pair to an SSRC; a pair that is already bound keeps its SSRC. *)
Definition SetLayerSsrc (mime rid : string) (ssrc : Z) (r : MediaTrackReceiver) : MediaTrackReceiver :=
  match layerSsrcs r !! (mime, rid) with
  | Some _ => r
  | None => set_layerSsrcs (<[(mime, rid) := ssrc]> (layerSsrcs r)) r
  end.

Definition SetSimulcast (b : bool) (r : MediaTrackReceiver) : MediaTrackReceiver :=
  {| trackInfo := trackInfo r; receivers := receivers r; potentialCodecs := potentialCodecs r;
     headerExtensions := headerExtensions r; layerSsrcs := layerSsrcs r;
     simulcast := b; muted := muted r; closing := closing r; closed := closed r |}.

Definition SetMuted (b : bool) (r : MediaTrackReceiver) : MediaTrackReceiver :=
  {| trackInfo := trackInfo r; receivers := receivers r; potentialCodecs := potentialCodecs r;
     headerExtensions := headerExtensions r; layerSsrcs := layerSsrcs r;
     simulcast := simulcast r; muted := b; closing := closing r; closed := closed r |}.

Definition SetClosing (r : MediaTrackReceiver) : MediaTrackReceiver :=
  {| trackInfo := trackInfo r; receivers := receivers r; potentialCodecs := potentialCodecs r;
     headerExtensions := headerExtensions r; layerSsrcs := layerSsrcs r;
     simulcast := simulcast r; muted := muted r; closing := true; closed := closed r |}.

(** Modelled from the spec: [ClearReceiver], which drops the receiver of
    one codec. *)
Definition ClearReceiver (mime : string) (willBeResumed : bool) (r : MediaTrackReceiver) : MediaTrackReceiver :=
  set_receivers (List.filter (fun w => negb (EqualFold (wr_mime w) mime)) (receivers r)) r.

(** Modelled from the spec: [ClearAllReceivers], which drops them all. *)
Definition ClearAllReceivers (willBeResumed : bool) (r : MediaTrackReceiver) : MediaTrackReceiver :=
  set_receivers [] r.

(** Modelled from the spec: [Close], which releases the track. *)
Definition Close (r : MediaTrackReceiver) : MediaTrackReceiver :=
  {| trackInfo := trackInfo r; receivers := receivers r; potentialCodecs := potentialCodecs r;
     headerExtensions := headerExtensions r; layerSsrcs := layerSsrcs r;
     simulcast := simulcast r; muted := muted r; closing := closing r; closed := true |}.

(** Modelled from the spec: [TryClose], the receiver-initiated close:
    the track is released when no receiver remains. *)
Definition TryClose (r : MediaTrackReceiver) : bool * MediaTrackReceiver :=
  match receivers r with
  | [] => (true, Close r)
  | _ :: _ => (false, r)
  end.

(** Modelled from the spec: [Restart], which resets the negotiated codec
    and layer records so that they can be negotiated afresh. *)
Definition Restart (r : MediaTrackReceiver) : MediaTrackReceiver :=
  {| trackInfo := trackInfo r; receivers := receivers r; potentialCodecs := [];
     headerExtensions := []; layerSsrcs := ∅;
     simulcast := simulcast r; muted := muted r; closing := closing r; closed := closed r |}.

(** The object behind a receiver pointer is shared with the registry: a
    method called on the receiver found for [mime] changes the registered
    entry. *)
Fixpoint onReceiver (mime : string) (f : WebRTCReceiver -> WebRTCReceiver)
    (l : list WebRTCReceiver) : list WebRTCReceiver :=
  match l with
  | [] => []
  | w :: rest =>
      if EqualFold (wr_mime w) mime then f w :: rest
      else w :: onReceiver mime f rest
  end.

End Registry.

(** ** Methods of the receiver object *)

Module Receiver.

(** Modelled from the spec: [sfu.NewWebRTCReceiver], a receiver for the
    codec of [track] with nothing registered on it yet. *)
Definition NewWebRTCReceiver (track : TrackRemote) : WebRTCReceiver :=
  {| wr_mime := tr_MimeType track; wr_priority := 0; wr_mid := "";
     wr_rtcpCh := false; wr_onClose := false; wr_onStatsUpdate := false;
     wr_onMaxLayerChange := false; wr_upTracks := [];
     wr_maxExpectedSpatialLayer := None |}.

Definition SetRTCPCh (w : WebRTCReceiver) : WebRTCReceiver :=
  {| wr_mime := wr_mime w; wr_priority := wr_priority w; wr_mid := wr_mid w;
     wr_rtcpCh := true; wr_onClose := wr_onClose w; wr_onStatsUpdate := wr_onStatsUpdate w;
     wr_onMaxLayerChange := wr_onMaxLayerChange w; wr_upTracks := wr_upTracks w;
     wr_maxExpectedSpatialLayer := wr_maxExpectedSpatialLayer w |}.

Definition OnCloseHandler (w : WebRTCReceiver) : WebRTCReceiver :=
  {| wr_mime := wr_mime w; wr_priority := wr_priority w; wr_mid := wr_mid w;
     wr_rtcpCh := wr_rtcpCh w; wr_onClose := true; wr_onStatsUpdate := wr_onStatsUpdate w;
     wr_onMaxLayerChange := wr_onMaxLayerChange w; wr_upTracks := wr_upTracks w;
     wr_maxExpectedSpatialLayer := wr_maxExpectedSpatialLayer w |}.

Definition OnStatsUpdate (w : WebRTCReceiver) : WebRTCReceiver :=
  {| wr_mime := wr_mime w; wr_priority := wr_priority w; wr_mid := wr_mid w;
     wr_rtcpCh := wr_rtcpCh w; wr_onClose := wr_onClose w; wr_onStatsUpdate := true;
     wr_onMaxLayerChange := wr_onMaxLayerChange w; wr_upTracks := wr_upTracks w;
     wr_maxExpectedSpatialLayer := wr_maxExpectedSpatialLayer w |}.

Definition OnMaxLayerChange (w : WebRTCReceiver) : WebRTCReceiver :=
  {| wr_mime := wr_mime w; wr_priority := wr_priority w; wr_mid := wr_mid w;
     wr_rtcpCh := wr_rtcpCh w; wr_onClose := wr_onClose w; wr_onStatsUpdate := wr_onStatsUpdate w;
     wr_onMaxLayerChange := true; wr_upTracks := wr_upTracks w;
     wr_maxExpectedSpatialLayer := wr_maxExpectedSpatialLayer w |}.

Definition AddUpTrack (track : TrackRemote) (buff : nat) (w : WebRTCReceiver) : WebRTCReceiver :=
  {| wr_mime := wr_mime w; wr_priority := wr_priority w; wr_mid := wr_mid w;
     wr_rtcpCh := wr_rtcpCh w; wr_onClose := wr_onClose w; wr_onStatsUpdate := wr_onStatsUpdate w;
     wr_onMaxLayerChange := wr_onMaxLayerChange w;
     wr_upTracks := wr_upTracks w ++ [(track, buff)];
     wr_maxExpectedSpatialLayer := wr_maxExpectedSpatialLayer w |}.

Definition SetMaxExpectedSpatialLayer (layer : Z) (w : WebRTCReceiver) : WebRTCReceiver :=
  {| wr_mime := wr_mime w; wr_priority := wr_priority w; wr_mid := wr_mid w;
     wr_rtcpCh := wr_rtcpCh w; wr_onClose := wr_onClose w; wr_onStatsUpdate := wr_onStatsUpdate w;
     wr_onMaxLayerChange := wr_onMaxLayerChange w; wr_upTracks := wr_upTracks w;
     wr_maxExpectedSpatialLayer := Some layer |}.

End Receiver.

(** ** The adaptive quality controller *)

Module Dynacast.

(** Modelled from the spec: [NewDynacastManager], with no codec, no
    demand, nothing queued and no handler. *)
Definition NewDynacastManager : DynacastManager :=
  {| dm_codecs := []; dm_current := {| subscribedQualities := []; maxSubscribedQualities := [] |};
     dm_queue := []; dm_handler := None; dm_closed := false |}.

(** Modelled from the spec: [AddCodec], which registers a codec for
    demand tracking and is idempotent. *)
Definition AddCodec (mime : string) (d : DynacastManager) : DynacastManager :=
  {| dm_codecs := if existsb (String.eqb mime) (dm_codecs d) then dm_codecs d
                  else dm_codecs d ++ [mime];
     dm_current := dm_current d; dm_queue := dm_queue d;
     dm_handler := dm_handler d; dm_closed := dm_closed d |}.

(** Modelled from the spec: [OnSubscribedMaxQualityChange], the single
    handler slot. *)
Definition OnSubscribedMaxQualityChange (h : option nat) (d : DynacastManager) : DynacastManager :=
  {| dm_codecs := dm_codecs d; dm_current := dm_current d; dm_queue := dm_queue d;
     dm_handler := Some h; dm_closed := dm_closed d |}.

(** Modelled from the spec: [ForceUpdate], one recomputation of the
    aggregate demand, queued for emission through the handler (the comment
    in [SetMuted]: this will queue up the current state). *)
Definition ForceUpdate (d : DynacastManager) : DynacastManager :=
  {| dm_codecs := dm_codecs d; dm_current := dm_current d;
     dm_queue := dm_queue d ++ [dm_current d];
     dm_handler := dm_handler d; dm_closed := dm_closed d |}.

(** Modelled from the spec: [Restart], after which demand is recomputed
    from scratch.  Timers are not part of the model. *)
Definition Restart (d : DynacastManager) : DynacastManager :=
  {| dm_codecs := dm_codecs d; dm_current := dm_current d;
     dm_queue := [dm_current d];
     dm_handler := dm_handler d; dm_closed := dm_closed d |}.

(** Modelled from the spec: [Close], the teardown of the controller. *)
Definition Close (d : DynacastManager) : DynacastManager :=
  {| dm_codecs := dm_codecs d; dm_current := dm_current d; dm_queue := dm_queue d;
     dm_handler := dm_handler d; dm_closed := true |}.

End Dynacast.

(** ** The buffer *)

(** Modelled from the spec: [SetSenderReportData], which records the
    timing of the latest sender report. *)
Definition SetSenderReportData (rtpTime ntpTime : Z) (b : Buffer) : Buffer :=
  {| lastSenderReport := Some (rtpTime, ntpTime) |}.

(** ** Methods of [MediaTrack] *)

Definition set_mtr (r : MediaTrackReceiver) (t : MediaTrack) : MediaTrack :=
  {| params := params t; numUpTracks := numUpTracks t; buffer := buffer t;
     mtr := r; lossProxy := lossProxy t; dynacastManager := dynacastManager t |}.

Definition set_dynacastManager (d : option DynacastManager) (t : MediaTrack) : MediaTrack :=
  {| params := params t; numUpTracks := numUpTracks t; buffer := buffer t;
     mtr := mtr t; lossProxy := lossProxy t; dynacastManager := d |}.

Definition set_buffer (b : option nat) (t : MediaTrack) : MediaTrack :=
  {| params := params t; numUpTracks := numUpTracks t; buffer := b;
     mtr := mtr t; lossProxy := lossProxy t; dynacastManager := dynacastManager t |}.

Definition set_numUpTracks (n : Z) (t : MediaTrack) : MediaTrack :=
  {| params := params t; numUpTracks := n; buffer := buffer t;
     mtr := mtr t; lossProxy := lossProxy t; dynacastManager := dynacastManager t |}.

(** [atomic.Uint32.Inc]: the incremented value, modulo 2^32. *)
Definition Inc (n : Z) : Z := ((n + 1) mod 2 ^ 32)%Z.

Definition ID (t : MediaTrack) : string := Sid (trackInfo (mtr t)).

(** Modelled from the spec: [NewMediaTrackReceiver], an empty registry
    around the track metadata. *)
Definition NewMediaTrackReceiver (ti : TrackInfo) : MediaTrackReceiver :=
  {| trackInfo := ti; receivers := []; potentialCodecs := []; headerExtensions := [];
     layerSsrcs := ∅; simulcast := false; muted := false; closing := false;
     closed := false |}.

(** [NewMediaTrack]: a loss proxy for audio, a quality controller for video. *)
Definition NewMediaTrack (p : MediaTrackParams) (ti : TrackInfo) : MediaTrack :=
  {| params := p; numUpTracks := 0; buffer := None;
     mtr := NewMediaTrackReceiver ti;
     lossProxy := match Type_ ti with TrackType_AUDIO => true | _ => false end;
     dynacastManager := match Type_ ti with
                        | TrackType_VIDEO => Some Dynacast.NewDynacastManager
                        | _ => None
                        end |}.

Section Methods.

(** Functions of package [buffer] that map RIDs and quality tiers to
    spatial layers, and [rtcp.Unmarshal]; their code is elsewhere. *)
Variable RidToSpatialLayer : string -> TrackInfo -> Z.
Variable VideoQualityToSpatialLayer : VideoQuality -> TrackInfo -> Z.
Variable Unmarshal : list Byte.byte -> list RtcpPacket + string.

(** The loop of the handler closure over [maxSubscribedQualities]. *)
Fixpoint setMaxExpectedLayers (qs : list SubscribedCodecQuality) (r : MediaTrackReceiver)
    : MediaTrackReceiver * list Event :=
  match qs with
  | [] => (r, [])
  | q :: rest =>
      match Registry.Receiver (CodecMime q) r with
      | Some _ =>
          let layer := VideoQualityToSpatialLayer (Quality q) (trackInfo r) in
          let r1 := Registry.set_receivers
                      (Registry.onReceiver (CodecMime q)
                         (Receiver.SetMaxExpectedSpatialLayer layer) (receivers r)) r in
          let '(r2, ev) := setMaxExpectedLayers rest r1 in
          (r2, Receiver_SetMaxExpectedSpatialLayer (CodecMime q) layer :: ev)
      | None => setMaxExpectedLayers rest r
      end
  end.

(** The closure [handler] built by [OnSubscribedMaxQualityChange], with
    the captured [f]. *)
Definition handler (f : option nat) (u : QualityUpdate) (t : MediaTrack) : MediaTrack * list Event :=
  let ev :=
    match f with
    | Some fid =>
        if negb (Registry.IsMuted (mtr t)) then [Handler_Call fid (ID t) u] else []
    | None => []
    end in
  let '(r, ev') := setMaxExpectedLayers (maxSubscribedQualities u) (mtr t) in
  (set_mtr r t, ev ++ ev').

Definition OnSubscribedMaxQualityChange (f : option nat) (t : MediaTrack) : MediaTrack :=
  match dynacastManager t with
  | None => t
  | Some d => set_dynacastManager (Some (Dynacast.OnSubscribedMaxQualityChange f d)) t
  end.

(** The loop of the RTCP closure over the decoded packets. *)
Fixpoint dispatchPackets (pkts : list RtcpPacket) (b : Buffer) : Buffer * list Event :=
  match pkts with
  | [] => (b, [])
  | SourceDescription :: rest => dispatchPackets rest b
  | SenderReport rtpTime ntpTime :: rest =>
      let '(b', ev) := dispatchPackets rest (SetSenderReportData rtpTime ntpTime b) in
      (b', Buffer_SetSenderReportData rtpTime ntpTime :: ev)
  | OtherPacket :: rest => dispatchPackets rest b
  end.

(** The closure given to [rtcpReader.OnPacket]; [b] is the buffer it
    captured. *)
Definition onPacket (bytes : list Byte.byte) (t : MediaTrack) (b : Buffer)
    : MediaTrack * Buffer * list Event :=
  match Unmarshal bytes with
  | inr _ => (t, b, [Log_Errorw "could not unmarshal RTCP"])
  | inl pkts => let '(b', ev) := dispatchPackets pkts b in (t, b', ev)
  end.

(** The closure given to [newWR.OnCloseHandler], with the captured mime. *)
Definition onCloseHandler (mime : string) (t : MediaTrack) : MediaTrack * list Event :=
  let r1 := Registry.SetClosing (mtr t) in
  let r2 := Registry.ClearReceiver mime false r1 in
  let '(ok, r3) := Registry.TryClose r2 in
  let ev := [Registry_SetClosing; Registry_ClearReceiver mime false; Registry_TryClose] in
  if ok then
    match dynacastManager t with
    | Some d => (set_dynacastManager (Some (Dynacast.Close d)) (set_mtr r3 t), ev ++ [Dynacast_Close])
    | None => (set_mtr r3 t, ev)
    end
  else (set_mtr r3 t, ev).

(** The loop over [t.params.SimTracks], in the order of iteration. *)
Fixpoint bindSimTracks (mime mid : string) (sims : list (Z * SimulcastTrackInfo))
    (r : MediaTrackReceiver) : MediaTrackReceiver :=
  match sims with
  | [] => r
  | (ssrc, info) :: rest =>
      if String.eqb (Mid info) mid
      then bindSimTracks mime mid rest (Registry.SetLayerSsrc mime (Rid info) ssrc r)
      else bindSimTracks mime mid rest r
  end.

(** The branch [wr == nil] of [AddReceiver] once the priority is known.
    [SetupReceiver] runs the callback that [NewMediaTrack] registered with
    [OnSetupReceiver], which adds the codec to the quality controller. *)
Definition setupNewCodec (receiver : RTPReceiver) (track : TrackRemote) (mid mime : string)
    (priority : Z) (buff : nat) (t : MediaTrack) : MediaTrack * list Event :=
  let ti := Registry.TrackInfoClone (mtr t) in
  let newWR := Receiver.OnCloseHandler (Receiver.SetRTCPCh (Receiver.NewWebRTCReceiver track)) in
  let newWR := if (priority =? 0)%Z
               then Receiver.OnMaxLayerChange (Receiver.OnStatsUpdate newWR)
               else newWR in
  let '(r1, ev1) :=
    match Registry.PrimaryReceiver (mtr t) with
    | None =>
        let potential := collectPotentialCodecs (Codecs ti) (rr_Codecs receiver) in
        if (0 <? length potential)%nat
        then (Registry.SetPotentialCodecs potential (rr_HeaderExtensions receiver) (mtr t),
              [Log_Debugw "primary codec published, set potential codecs"])
        else (mtr t, [])
    | Some _ => (mtr t, [])
    end in
  let r2 := Registry.SetupReceiver newWR priority mid r1 in
  let '(d, ev2) :=
    match dynacastManager t with
    | Some d => (Some (Dynacast.AddCodec (wr_mime newWR) d), [Dynacast_AddCodec (wr_mime newWR)])
    | None => (None, [])
    end in
  let r3 := bindSimTracks mime mid (SimTracks (params t)) r2 in
  (set_dynacastManager d (set_mtr r3 (set_buffer (Some buff) t)), ev1 ++ ev2).

(** [AddReceiver] from [wr.AddUpTrack] to the end. *)
Definition attachUpTrack (track : TrackRemote) (mime : string) (layer : Z) (buff : nat)
    (t : MediaTrack) : MediaTrack * list Event :=
  let r1 := Registry.set_receivers
              (Registry.onReceiver mime (Receiver.AddUpTrack track buff) (receivers (mtr t)))
              (mtr t) in
  let n := Inc (numUpTracks t) in
  let r2 := if (1 <? n)%Z || negb (String.eqb (RID track) "")
            then Registry.SetSimulcast true r1 else r1 in
  let r3 := if Registry.IsSimulcast r2
            then Registry.SetLayerSsrc mime (RID track) (SSRC track) r2 else r2 in
  (set_mtr r3 (set_numUpTracks n t),
   [Buffer_Bind buff (tr_MimeType track); Buffer_OnFpsChanged buff;
    Buffer_OnFinalRtpStats buff mime layer]).

(** [AddReceiver]: the result is the [newCodec] flag.  The [twcc]
    responder is only handed to the receiver constructor and is left out. *)
Definition AddReceiver (receiver : RTPReceiver) (track : TrackRemote) (mid : string)
    (t : MediaTrack) : bool * MediaTrack * list Event :=
  match BufferFactory (params t) (SSRC track) with
  | (Some buff, Some rtcpReader) =>
      let ti := Registry.TrackInfoClone (mtr t) in
      let mime := ToLower (tr_MimeType track) in
      let layer := RidToSpatialLayer (RID track) ti in
      let ev0 := [Rtcp_OnPacket rtcpReader buff; Log_Debugw "AddReceiver"] in
      match Registry.Receiver mime (mtr t) with
      | None =>
          let priority := resolvePriority mime (Codecs ti) in
          if (priority <? 0)%Z then
            (false, t, ev0 ++ [Log_Warnw "could not find codec for webrtc receiver" mime ti])
          else
            let '(t1, ev1) := setupNewCodec receiver track mid mime priority buff t in
            let '(t2, ev2) := attachUpTrack track mime layer buff t1 in
            (true, t2, ev0 ++ ev1 ++ ev2)
      | Some _ =>
          let '(t2, ev2) := attachUpTrack track mime layer buff t in
          (false, t2, ev0 ++ ev2)
      end
  | _ => (false, t, [Log_Errorw "could not retrieve buffer pair"])
  end.

Definition Restart (t : MediaTrack) : MediaTrack * list Event :=
  let t1 := set_mtr (Registry.Restart (mtr t)) t in
  match dynacastManager t1 with
  | Some d => (set_dynacastManager (Some (Dynacast.Restart d)) t1, [Registry_Restart; Dynacast_Restart])
  | None => (t1, [Registry_Restart])
  end.

Definition Close (willBeResumed : bool) (t : MediaTrack) : MediaTrack * list Event :=
  let r1 := Registry.SetClosing (mtr t) in
  let '(d, ev) :=
    match dynacastManager t with
    | Some d => (Some (Dynacast.Close d), [Dynacast_Close])
    | None => (None, [])
    end in
  let r2 := Registry.ClearAllReceivers willBeResumed r1 in
  let r3 := Registry.Close r2 in
  (set_dynacastManager d (set_mtr r3 t),
   [Registry_SetClosing] ++ ev ++ [Registry_ClearAllReceivers willBeResumed; Registry_Close]).

Definition SetMuted (muted : bool) (t : MediaTrack) : MediaTrack * list Event :=
  let '(d, ev) :=
    if negb muted then
      match dynacastManager t with
      | Some d => (Some (Dynacast.ForceUpdate d), [Dynacast_ForceUpdate])
      | None => (None, [])
      end
    else (dynacastManager t, []) in
  (set_mtr (Registry.SetMuted muted (mtr t)) (set_dynacastManager d t),
   ev ++ [Registry_SetMuted muted]).

(** Modelled from the spec: the controller emits the oldest queued
    recomputation through the handler registered with it. *)
Definition emitQualityChange (t : MediaTrack) : MediaTrack * list Event :=
  match dynacastManager t with
  | Some d =>
      match dm_queue d with
      | u :: rest =>
          let d' := {| dm_codecs := dm_codecs d; dm_current := dm_current d; dm_queue := rest;
                       dm_handler := dm_handler d; dm_closed := dm_closed d |} in
          let t1 := set_dynacastManager (Some d') t in
          match dm_handler d with
          | Some f => handler f u t1
          | None => (t1, [])
          end
      | [] => (t, [])
      end
  | None => (t, [])
  end.

(** ** Runs of a track *)

Inductive Op :=
| Op_AddReceiver (receiver : RTPReceiver) (track : TrackRemote) (mid : string)
| Op_OnSubscribedMaxQualityChange (f : option nat)
| Op_Restart
| Op_Close (willBeResumed : bool)
| Op_SetMuted (muted : bool)
| Op_ReceiverClosed (mime : string)
| Op_EmitQualityChange.

Definition step (o : Op) (t : MediaTrack) : MediaTrack * list Event :=
  match o with
  | Op_AddReceiver receiver track mid =>
      let '(_, t', ev) := AddReceiver receiver track mid t in (t', ev)
  | Op_OnSubscribedMaxQualityChange f => (OnSubscribedMaxQualityChange f t, [])
  | Op_Restart => Restart t
  | Op_Close willBeResumed => Close willBeResumed t
  | Op_SetMuted muted => SetMuted muted t
  | Op_ReceiverClosed mime => onCloseHandler mime t
  | Op_EmitQualityChange => emitQualityChange t
  end.

Fixpoint run (ops : list Op) (t : MediaTrack) : MediaTrack * list Event :=
  match ops with
  | [] => (t, [])
  | o :: rest =>
      let '(t1, ev1) := step o t in
      let '(t2, ev2) := run rest t1 in
      (t2, ev1 ++ ev2)
  end.

(** The results of a sequence of [AddReceiver] calls, in order. *)
Fixpoint addAll (calls : list (RTPReceiver * TrackRemote * string)) (t : MediaTrack)
    : list bool * MediaTrack :=
  match calls with
  | [] => ([], t)
  | (receiver, track, mid) :: rest =>
      let '(b, t1, _) := AddReceiver receiver track mid t in
      let '(bs, t2) := addAll rest t1 in
      (b :: bs, t2)
  end.

End Methods.

(** The fields of a receiver that decide its slot and its wiring. *)
Definition slot (w : WebRTCReceiver) : string * Z * bool * bool :=
  (wr_mime w, wr_priority w, wr_onStatsUpdate w, wr_onMaxLayerChange w).

(** A receiver is wired to the top-level callbacks when both
    [OnStatsUpdate] and [OnMaxLayerChange] were registered on it. *)
Definition wired (w : WebRTCReceiver) : bool :=
  wr_onStatsUpdate w && wr_onMaxLayerChange w.

(** The folded mimes of the registered receivers. *)
Definition mimes (l : list WebRTCReceiver) : list string :=
  map (fun w => ToLower (wr_mime w)) l.

(** A slot is resolved when its priority is the one [AddReceiver]
    computes for its mime and its wiring follows the test [priority == 0]. *)
Definition resolved (codecs : list SimulcastCodecInfo) (s : string * Z * bool * bool) : Prop :=
  let '(mime, priority, stats, maxLayer) := s in
  priority = resolvePriority (ToLower mime) codecs /\
  stats = (priority =? 0)%Z /\
  maxLayer = (priority =? 0)%Z.

(** The registry invariant: one receiver per folded mime, every slot
    resolved against the declared codecs. *)
Definition registryInv (t : MediaTrack) : Prop :=
  NoDup (mimes (receivers (mtr t))) /\
  Forall (resolved (Codecs (trackInfo (mtr t)))) (map slot (receivers (mtr t))).

(** Recognisers of calls in a trace. *)
Definition isDynacastClose (e : Event) : bool :=
  match e with Dynacast_Close => true | _ => false end.

Definition isClearAllReceivers (e : Event) : bool :=
  match e with Registry_ClearAllReceivers _ => true | _ => false end.

Definition isHandlerCall (e : Event) : bool :=
  match e with Handler_Call _ _ _ => true | _ => false end.

(** The timing pairs of the sender reports among decoded packets. *)
Definition senderReports (pkts : list RtcpPacket) : list (Z * Z) :=
  omap (fun pkt => match pkt with
                   | SenderReport rtpTime ntpTime => Some (rtpTime, ntpTime)
                   | _ => None
                   end) pkts.

(** The positional fallback of the priority resolution applies to an
    empty codec list and to a single codec with an empty mime. *)
Definition fallbackApplies (codecs : list SimulcastCodecInfo) : bool :=
  match codecs with
  | [] => true
  | [c] => String.eqb (MimeType c) ""
  | _ => false
  end.

(** The guard [buff == nil || rtcpReader == nil] of [AddReceiver], negated. *)
Definition hasBufferPair (p : MediaTrackParams) (track : TrackRemote) : bool :=
  match BufferFactory p (SSRC track) with
  | (Some _, Some _) => true
  | _ => false
  end.

(** The encodings of a sequence of calls that got a buffer pair, each with
    its buffer. *)
Definition upTracksOf (p : MediaTrackParams) (calls : list (RTPReceiver * TrackRemote * string))
    : list (TrackRemote * nat) :=
  omap (fun c : RTPReceiver * TrackRemote * string =>
          match BufferFactory p (SSRC c.1.2) with
          | (Some buff, Some _) => Some (c.1.2, buff)
          | _ => None
          end) calls.

(** ** A concrete track, used to run the model *)

Module Demo.

Definition RidToSpatialLayer (rid : string) (ti : TrackInfo) : Z :=
  if String.eqb rid "q" then 0%Z
  else if String.eqb rid "h" then 1%Z
  else if String.eqb rid "f" then 2%Z
  else if String.eqb rid "" then 0%Z
  else (-1)%Z.

Definition VideoQualityToSpatialLayer (q : VideoQuality) (ti : TrackInfo) : Z :=
  match q with
  | VideoQuality_LOW => 0%Z
  | VideoQuality_MEDIUM => 1%Z
  | VideoQuality_HIGH => 2%Z
  | VideoQuality_OFF => (-1)%Z
  end.

(** A decoder for the runs below: the first byte selects the packet. *)
Definition Unmarshal (bytes : list Byte.byte) : list RtcpPacket + string :=
  match bytes with
  | Byte.xc8 :: _ => inl [SenderReport 90000 7]
  | Byte.xca :: _ => inl [SourceDescription]
  | Byte.xc9 :: _ => inl [OtherPacket; SenderReport 1 2; SourceDescription; SenderReport 3 4]
  | _ => inr "rtcp: packet too short"
  end.

(** Every SSRC gets a buffer pair except 9999. *)
Definition factory (ssrc : Z) : option nat * option nat :=
  if (ssrc =? 9999)%Z then (None, None) else (Some (Z.to_nat ssrc), Some (Z.to_nat ssrc)).

Definition params : MediaTrackParams :=
  {| SignalCid := "cid"; SdpCid := "sdp"; ParticipantID := "PA_1";
     BufferFactory := factory; SimTracks := [] |}.

Definition vp8 : SimulcastCodecInfo := {| MimeType := "video/vp8"; Cid := "a" |}.
Definition av1 : SimulcastCodecInfo := {| MimeType := "video/av1"; Cid := "b" |}.

Definition video : TrackInfo :=
  {| Sid := "TR_v"; Type_ := TrackType_VIDEO; Codecs := [vp8; av1] |}.

Definition audio : TrackInfo :=
  {| Sid := "TR_a"; Type_ := TrackType_AUDIO; Codecs := [] |}.

Definition receiver : RTPReceiver :=
  {| rr_Codecs := [ {| cp_MimeType := "video/VP8"; cp_PayloadType := 96 |};
                    {| cp_MimeType := "video/AV1"; cp_PayloadType := 98 |} ];
     rr_HeaderExtensions := ["urn:ietf:params:rtp-hdrext:sdes:mid"] |}.

Definition encoding (mime rid : string) (ssrc : Z) : TrackRemote :=
  {| SSRC := ssrc; tr_MimeType := mime; RID := rid |}.

Definition videoTrack : MediaTrack := NewMediaTrack params video.
Definition audioTrack : MediaTrack := NewMediaTrack params audio.

Definition call (mime rid : string) (ssrc : Z) : RTPReceiver * TrackRemote * string :=
  (receiver, encoding mime rid ssrc, "0").

(** No buffer pair for the first encoding, one for the second. *)
Definition retried : list (RTPReceiver * TrackRemote * string) :=
  [call "video/vp8" "" 9999; call "video/VP8" "" 1001].

(** Two layers of one codec, the mime spelt in two ways. *)
Definition twoLayers : list (RTPReceiver * TrackRemote * string) :=
  [call "video/vp8" "q" 1001; call "VIDEO/VP8" "h" 1002].

(** The second declared codec arrives before the first. *)
Definition av1First : list Op :=
  [Op_AddReceiver receiver (encoding "video/av1" "" 2001) "0";
   Op_AddReceiver receiver (encoding "video/vp8" "" 1001) "0"].

(** The track after a first layer with RID f. *)
Definition simulcastTrack : MediaTrack :=
  (AddReceiver RidToSpatialLayer receiver (encoding "video/vp8" "f" 1001) "0" videoTrack).1.2.

Definition laterOps : list Op :=
  [Op_SetMuted true; Op_Restart; Op_ReceiverClosed "video/vp8"; Op_Close false;
   Op_AddReceiver receiver (encoding "video/vp8" "" 1003) "0"].

(** A muted video track with an external handler registered. *)
Definition mutedTrack : MediaTrack :=
  (SetMuted true (OnSubscribedMaxQualityChange (Some 7%nat) videoTrack)).1.

Definition demand : QualityUpdate :=
  {| subscribedQualities := [];
     maxSubscribedQualities := [ {| CodecMime := "VIDEO/VP8"; Quality := VideoQuality_HIGH |} ] |}.

End Demo.

(** ** Accessors of [MediaTrack] *)

(** The loop of [HasSdpCid] over the declared codecs. *)
Fixpoint hasCodecCid (cid : string) (codecs : list SimulcastCodecInfo) : bool :=
  match codecs with
  | [] => false
  | c :: rest => if String.eqb (Cid c) cid then true else hasCodecCid cid rest
  end.

(** [HasSdpCid]. *)
Definition HasSdpCid (cid : string) (t : MediaTrack) : bool :=
  if String.eqb (SdpCid (params t)) cid then true
  else hasCodecCid cid (Codecs (Registry.TrackInfoClone (mtr t))).

(** [HasPendingCodec]. *)
Definition HasPendingCodec (t : MediaTrack) : bool :=
  match Registry.PrimaryReceiver (mtr t) with
  | None => true
  | Some _ => false
  end.

(** Further recognisers of calls in a trace. *)
Definition isDynacastCall (e : Event) : bool :=
  match e with
  | Dynacast_AddCodec _ | Dynacast_Close | Dynacast_ForceUpdate | Dynacast_Restart => true
  | _ => false
  end.

Definition isForceUpdate (e : Event) : bool :=
  match e with Dynacast_ForceUpdate => true | _ => false end.

Definition isBufferListener (e : Event) : bool :=
  match e with
  | Buffer_Bind _ _ | Buffer_OnFpsChanged _ | Buffer_OnFinalRtpStats _ _ _ => true
  | _ => false
  end.

Definition isRtcpOnPacket (e : Event) : bool :=
  match e with Rtcp_OnPacket _ _ => true | _ => false end.

Definition isAddCodec (e : Event) : bool :=
  match e with Dynacast_AddCodec _ => true | _ => false end.

Definition isSetMaxExpected (e : Event) : bool :=
  match e with Receiver_SetMaxExpectedSpatialLayer _ _ => true | _ => false end.

(** The operations that unmute. *)
Definition isUnmute (o : Op) : bool :=
  match o with Op_SetMuted false => true | _ => false end.

(** More runs of the concrete track. *)
Module Demo2.

Definition audioOps : list Op :=
  [Op_AddReceiver Demo.receiver (Demo.encoding "audio/opus" "" 3001) "1";
   Op_OnSubscribedMaxQualityChange (Some 7%nat);
   Op_SetMuted true; Op_SetMuted false; Op_Restart; Op_EmitQualityChange;
   Op_ReceiverClosed "audio/opus"; Op_Close false].

Definition videoOps : list Op :=
  [Op_AddReceiver Demo.receiver (Demo.encoding "video/vp8" "" 1001) "0";
   Op_SetMuted true; Op_SetMuted false; Op_Restart; Op_SetMuted false; Op_Close false].

(** A track with entries in [SimTracks], two of them for media id 0. *)
Definition simParams : MediaTrackParams :=
  {| SignalCid := "cid"; SdpCid := "sdp"; ParticipantID := "PA_1";
     BufferFactory := Demo.factory;
     SimTracks := [ (1001%Z, {| Mid := "0"; Rid := "q" |});
                    (1002%Z, {| Mid := "0"; Rid := "h" |});
                    (5001%Z, {| Mid := "1"; Rid := "q" |}) ] |}.

Definition simTrack : MediaTrack := NewMediaTrack simParams Demo.video.

(** That track after its first layer, sent with media id 0. *)
Definition simTrackFirstLayer : MediaTrack :=
  (AddReceiver Demo.RidToSpatialLayer Demo.receiver (Demo.encoding "video/vp8" "q" 1001) "0"
     simTrack).1.2.

Definition closedAndRestarted : list Op :=
  [Op_AddReceiver Demo.receiver (Demo.encoding "video/vp8" "" 1001) "0";
   Op_Close false; Op_Restart].

Definition twoCodecs : QualityUpdate :=
  {| subscribedQualities := [];
     maxSubscribedQualities :=
       [ {| CodecMime := "video/vp8"; Quality := VideoQuality_LOW |};
         {| CodecMime := "video/av1"; Quality := VideoQuality_HIGH |} ] |}.

End Demo2.

(** * Properties *)

(** ** Case folding *)

Lemma lower_idem c : lower (lower c) = lower c.
Proof. destruct c as [[] [] [] [] [] [] [] []]; reflexivity. Qed.

Lemma ToLower_idem s : ToLower (ToLower s) = ToLower s.
Proof. induction s as [|c s IH]; simpl; [done|]. by rewrite lower_idem, IH. Qed.

Lemma EqualFold_ToLower s t : EqualFold s t = true <-> ToLower s = ToLower t.
Proof.
  revert t; induction s as [|a s IH]; intros [|b t]; simpl; try (split; done).
  rewrite andb_true_iff, IH. split.
  - intros [Hc ->]. apply Ascii.eqb_eq in Hc. by rewrite Hc.
  - intros [= Hc Hs]. split; [by apply Ascii.eqb_eq | done].
Qed.

Lemma EqualFold_false s t : EqualFold s t = false <-> ToLower s <> ToLower t.
Proof.
  rewrite <- EqualFold_ToLower. destruct (EqualFold s t); split; congruence.
Qed.

Lemma EqualFold_refl s : EqualFold s s = true.
Proof. by apply EqualFold_ToLower. Qed.

Lemma EqualFold_sym s t : EqualFold s t = EqualFold t s.
Proof.
  destruct (EqualFold t s) eqn:E.
  - apply EqualFold_ToLower. apply EqualFold_ToLower in E. done.
  - apply EqualFold_false. apply EqualFold_false in E. congruence.
Qed.

Lemma EqualFold_congr_l s s' t : ToLower s = ToLower s' -> EqualFold s t = EqualFold s' t.
Proof.
  intros H. destruct (EqualFold s' t) eqn:E.
  - apply EqualFold_ToLower. apply EqualFold_ToLower in E. congruence.
  - apply EqualFold_false. apply EqualFold_false in E. congruence.
Qed.

Lemma EqualFold_congr_r s t t' : ToLower t = ToLower t' -> EqualFold s t = EqualFold s t'.
Proof. intros H. rewrite (EqualFold_sym s t), (EqualFold_sym s t'). by apply EqualFold_congr_l. Qed.

Lemma EqualFold_lower_r s t : EqualFold s (ToLower t) = EqualFold s t.
Proof. apply EqualFold_congr_r, ToLower_idem. Qed.

(** ** Priority resolution *)

Lemma findCodecIndex_first mime codecs k i c :
  codecs !! i = Some c ->
  EqualFold mime (MimeType c) = true ->
  (forall j c', (j < i)%nat -> codecs !! j = Some c' -> EqualFold mime (MimeType c') = false) ->
  findCodecIndex mime codecs k = (k + Z.of_nat i)%Z.
Proof.
  revert k i. induction codecs as [|c0 rest IH]; intros k i Hi Hc Hlt; [done|].
  destruct i as [|i]; simpl in *.
  - injection Hi as ->. rewrite Hc. lia.
  - rewrite (Hlt 0%nat c0) by (done || lia).
    rewrite (IH (k + 1)%Z i); [lia | done | done |].
    intros j c' Hj Hl. apply (Hlt (S j) c'); [lia | done].
Qed.

Lemma findCodecIndex_none mime codecs k :
  (forall c, c ∈ codecs -> EqualFold mime (MimeType c) = false) ->
  findCodecIndex mime codecs k = (-1)%Z.
Proof.
  revert k. induction codecs as [|c0 rest IH]; intros k H; [done|]. simpl.
  rewrite (H c0) by (by left). apply IH. intros c Hc. apply H. by right.
Qed.

Lemma findCodecIndex_range mime codecs k :
  (0 <= k)%Z ->
  findCodecIndex mime codecs k = (-1)%Z \/
  (k <= findCodecIndex mime codecs k < k + Z.of_nat (length codecs))%Z.
Proof.
  revert k. induction codecs as [|c0 rest IH]; intros k Hk; simpl; [by left|].
  destruct (EqualFold mime (MimeType c0)); [right; lia|].
  destruct (IH (k + 1)%Z) as [H|H]; [lia | by left | right; lia].
Qed.

Lemma resolvePriority_match mime codecs i c :
  codecs !! i = Some c ->
  EqualFold mime (MimeType c) = true ->
  (forall j c', (j < i)%nat -> codecs !! j = Some c' -> EqualFold mime (MimeType c') = false) ->
  resolvePriority mime codecs = Z.of_nat i.
Proof.
  intros Hi Hc Hlt. unfold resolvePriority.
  rewrite (findCodecIndex_first mime codecs 0 i c) by done.
  cbv zeta. case Z.ltb_spec; intros; lia.
Qed.

Lemma resolvePriority_nomatch mime codecs :
  (forall c, c ∈ codecs -> EqualFold mime (MimeType c) = false) ->
  resolvePriority mime codecs =
    match codecs with
    | [] => 0%Z
    | [c] => if String.eqb (MimeType c) "" then 0%Z else (-1)%Z
    | _ => (-1)%Z
    end.
Proof.
  intros H. unfold resolvePriority. rewrite (findCodecIndex_none mime codecs 0 H).
  simpl. by destruct codecs as [|c [|c' rest]].
Qed.

(** ** The registry under the receiver methods *)

Lemma find_app_None {A} (p : A -> bool) l x :
  List.find p l = None -> List.find p (l ++ [x]) = if p x then Some x else None.
Proof.
  induction l as [|a l IH]; simpl; [done|]. destruct (p a); [done | exact IH].
Qed.

Lemma find_onReceiver m m' f l :
  (forall w, wr_mime (f w) = wr_mime w) ->
  List.find (fun w => EqualFold (wr_mime w) m') (Registry.onReceiver m f l) =
  if EqualFold m m' then f <$> List.find (fun w => EqualFold (wr_mime w) m') l
  else List.find (fun w => EqualFold (wr_mime w) m') l.
Proof.
  intros Hf. induction l as [|w l IH]; simpl; [by destruct (EqualFold m m')|].
  destruct (EqualFold (wr_mime w) m) eqn:Ewm; simpl.
  - rewrite Hf. apply EqualFold_ToLower in Ewm.
    rewrite <- (EqualFold_congr_l _ _ m' Ewm).
    by destruct (EqualFold (wr_mime w) m').
  - destruct (EqualFold (wr_mime w) m') eqn:Ewm'.
    + destruct (EqualFold m m') eqn:Emm; [|done].
      apply EqualFold_ToLower in Ewm', Emm. apply EqualFold_false in Ewm. congruence.
    + exact IH.
Qed.

Lemma map_slot_onReceiver m f l :
  (forall w, slot (f w) = slot w) ->
  map slot (Registry.onReceiver m f l) = map slot l.
Proof.
  intros Hf. induction l as [|w l IH]; simpl; [done|].
  destruct (EqualFold (wr_mime w) m); simpl; by rewrite ?Hf, ?IH.
Qed.

Lemma SetLayerSsrc_fields mime rid ssrc r :
  trackInfo (Registry.SetLayerSsrc mime rid ssrc r) = trackInfo r /\
  receivers (Registry.SetLayerSsrc mime rid ssrc r) = receivers r /\
  potentialCodecs (Registry.SetLayerSsrc mime rid ssrc r) = potentialCodecs r /\
  headerExtensions (Registry.SetLayerSsrc mime rid ssrc r) = headerExtensions r /\
  simulcast (Registry.SetLayerSsrc mime rid ssrc r) = simulcast r /\
  muted (Registry.SetLayerSsrc mime rid ssrc r) = muted r /\
  closing (Registry.SetLayerSsrc mime rid ssrc r) = closing r /\
  closed (Registry.SetLayerSsrc mime rid ssrc r) = closed r.
Proof. unfold Registry.SetLayerSsrc. by destruct (layerSsrcs r !! (mime, rid)). Qed.

Lemma SetLayerSsrc_lookup mime rid ssrc r :
  layerSsrcs (Registry.SetLayerSsrc mime rid ssrc r) !! (mime, rid)
  = Some (default ssrc (layerSsrcs r !! (mime, rid))).
Proof.
  unfold Registry.SetLayerSsrc. destruct (layerSsrcs r !! (mime, rid)) eqn:E; simpl; [done|].
  apply lookup_insert_eq.
Qed.

Lemma SetLayerSsrc_keeps mime rid ssrc r k s :
  layerSsrcs r !! k = Some s -> layerSsrcs (Registry.SetLayerSsrc mime rid ssrc r) !! k = Some s.
Proof.
  intros H. unfold Registry.SetLayerSsrc.
  destruct (layerSsrcs r !! (mime, rid)) eqn:E; simpl; [done|].
  rewrite lookup_insert_ne; [done|]. intros <-. congruence.
Qed.

Lemma bindSimTracks_fields mime mid sims r :
  trackInfo (bindSimTracks mime mid sims r) = trackInfo r /\
  receivers (bindSimTracks mime mid sims r) = receivers r /\
  simulcast (bindSimTracks mime mid sims r) = simulcast r /\
  muted (bindSimTracks mime mid sims r) = muted r /\
  closing (bindSimTracks mime mid sims r) = closing r /\
  closed (bindSimTracks mime mid sims r) = closed r.
Proof.
  revert r. induction sims as [|[ssrc info] rest IH]; intros r; simpl; [done|].
  destruct (String.eqb (Mid info) mid); [|apply IH].
  destruct (IH (Registry.SetLayerSsrc mime (Rid info) ssrc r)) as (-> & -> & -> & -> & -> & ->).
  destruct (SetLayerSsrc_fields mime (Rid info) ssrc r) as (-> & -> & _ & _ & -> & -> & -> & ->).
  done.
Qed.

Lemma bindSimTracks_keeps mime mid sims r k s :
  layerSsrcs r !! k = Some s -> layerSsrcs (bindSimTracks mime mid sims r) !! k = Some s.
Proof.
  revert r. induction sims as [|[ssrc info] rest IH]; intros r H; simpl; [done|].
  destruct (String.eqb (Mid info) mid); [|by apply IH].
  apply IH. by apply SetLayerSsrc_keeps.
Qed.

Lemma bindSimTracks_other_mid mime mid sims r :
  (forall ssrc info, (ssrc, info) ∈ sims -> Mid info <> mid) ->
  bindSimTracks mime mid sims r = r.
Proof.
  revert r. induction sims as [|[ssrc info] rest IH]; intros r H; simpl; [done|].
  destruct (String.eqb_spec (Mid info) mid) as [E|E].
  - exfalso. apply (H ssrc info); [by left | done].
  - apply IH. intros s i Hi. apply (H s i). by right.
Qed.

(** ** [AddReceiver], path by path *)

Section AddReceiverPaths.

Variable RidToSpatialLayer : string -> TrackInfo -> Z.

Lemma AddReceiver_no_pair receiver track mid t :
  (BufferFactory (params t) (SSRC track)).1 = None \/
  (BufferFactory (params t) (SSRC track)).2 = None ->
  AddReceiver RidToSpatialLayer receiver track mid t
  = (false, t, [Log_Errorw "could not retrieve buffer pair"]).
Proof.
  unfold AddReceiver.
  destruct (BufferFactory (params t) (SSRC track)) as [[b|] [r|]]; simpl; intros [H|H]; done.
Qed.

Lemma AddReceiver_existing receiver track mid t buff rd w :
  BufferFactory (params t) (SSRC track) = (Some buff, Some rd) ->
  Registry.Receiver (ToLower (tr_MimeType track)) (mtr t) = Some w ->
  AddReceiver RidToSpatialLayer receiver track mid t
  = (false,
     (attachUpTrack track (ToLower (tr_MimeType track))
        (RidToSpatialLayer (RID track) (trackInfo (mtr t))) buff t).1,
     [Rtcp_OnPacket rd buff; Log_Debugw "AddReceiver"] ++
     (attachUpTrack track (ToLower (tr_MimeType track))
        (RidToSpatialLayer (RID track) (trackInfo (mtr t))) buff t).2).
Proof.
  intros Hb Hw. unfold AddReceiver. rewrite Hb. cbv zeta.
  unfold Registry.TrackInfoClone. rewrite Hw. done.
Qed.

Lemma AddReceiver_unresolved receiver track mid t buff rd :
  BufferFactory (params t) (SSRC track) = (Some buff, Some rd) ->
  Registry.Receiver (ToLower (tr_MimeType track)) (mtr t) = None ->
  (resolvePriority (ToLower (tr_MimeType track)) (Codecs (trackInfo (mtr t))) < 0)%Z ->
  AddReceiver RidToSpatialLayer receiver track mid t
  = (false, t,
     [Rtcp_OnPacket rd buff; Log_Debugw "AddReceiver";
      Log_Warnw "could not find codec for webrtc receiver" (ToLower (tr_MimeType track))
        (trackInfo (mtr t))]).
Proof.
  intros Hb Hw Hp. unfold AddReceiver. rewrite Hb. cbv zeta.
  unfold Registry.TrackInfoClone. rewrite Hw.
  destruct (Z.ltb_spec (resolvePriority (ToLower (tr_MimeType track)) (Codecs (trackInfo (mtr t)))) 0); [done | lia].
Qed.

Lemma AddReceiver_new receiver track mid t buff rd :
  BufferFactory (params t) (SSRC track) = (Some buff, Some rd) ->
  Registry.Receiver (ToLower (tr_MimeType track)) (mtr t) = None ->
  (0 <= resolvePriority (ToLower (tr_MimeType track)) (Codecs (trackInfo (mtr t))))%Z ->
  let mime := ToLower (tr_MimeType track) in
  let t1 := setupNewCodec receiver track mid mime
              (resolvePriority mime (Codecs (trackInfo (mtr t)))) buff t in
  let t2 := attachUpTrack track mime (RidToSpatialLayer (RID track) (trackInfo (mtr t))) buff t1.1 in
  AddReceiver RidToSpatialLayer receiver track mid t
  = (true, t2.1, [Rtcp_OnPacket rd buff; Log_Debugw "AddReceiver"] ++ t1.2 ++ t2.2).
Proof.
  intros Hb Hw Hp. unfold AddReceiver. rewrite Hb. cbv zeta.
  unfold Registry.TrackInfoClone. rewrite Hw.
  destruct (Z.ltb_spec (resolvePriority (ToLower (tr_MimeType track)) (Codecs (trackInfo (mtr t)))) 0); [lia|].
  destruct (setupNewCodec _ _ _ _ _ _ _) as [t1 ev1]. simpl.
  reflexivity.
Qed.

(** What the two halves of [AddReceiver] do to the registry. *)

Lemma attachUpTrack_fields track mime layer buff t :
  let t' := (attachUpTrack track mime layer buff t).1 in
  params t' = params t /\
  dynacastManager t' = dynacastManager t /\
  buffer t' = buffer t /\
  numUpTracks t' = Inc (numUpTracks t) /\
  trackInfo (mtr t') = trackInfo (mtr t) /\
  receivers (mtr t') = Registry.onReceiver mime (Receiver.AddUpTrack track buff) (receivers (mtr t)) /\
  simulcast (mtr t') = simulcast (mtr t) || (1 <? Inc (numUpTracks t))%Z || negb (String.eqb (RID track) "") /\
  muted (mtr t') = muted (mtr t) /\
  closing (mtr t') = closing (mtr t) /\
  closed (mtr t') = closed (mtr t).
Proof.
  unfold attachUpTrack; cbv zeta; simpl.
  destruct ((1 <? Inc (numUpTracks t))%Z || negb (String.eqb (RID track) "")) eqn:E; simpl.
  - destruct (SetLayerSsrc_fields mime (RID track) (SSRC track)
                (Registry.SetSimulcast true (Registry.set_receivers
                   (Registry.onReceiver mime (Receiver.AddUpTrack track buff) (receivers (mtr t))) (mtr t))))
      as (-> & -> & _ & _ & -> & -> & -> & ->).
    simpl. rewrite <- orb_assoc, E, orb_true_r. done.
  - rewrite <- orb_assoc, E, orb_false_r. unfold Registry.IsSimulcast; simpl.
    destruct (simulcast (mtr t)) eqn:Es; simpl; [|done].
    destruct (SetLayerSsrc_fields mime (RID track) (SSRC track)
                (Registry.set_receivers
                   (Registry.onReceiver mime (Receiver.AddUpTrack track buff) (receivers (mtr t))) (mtr t)))
      as (-> & -> & _ & _ & -> & -> & -> & ->).
    simpl. done.
Qed.

Lemma setupNewCodec_fields receiver track mid mime priority buff t :
  let t' := (setupNewCodec receiver track mid mime priority buff t).1 in
  params t' = params t /\
  numUpTracks t' = numUpTracks t /\
  trackInfo (mtr t') = trackInfo (mtr t) /\
  simulcast (mtr t') = simulcast (mtr t) /\
  muted (mtr t') = muted (mtr t) /\
  closing (mtr t') = closing (mtr t) /\
  closed (mtr t') = closed (mtr t) /\
  (exists w, receivers (mtr t') = receivers (mtr t) ++ [w] /\
     slot w = (tr_MimeType track, priority, (priority =? 0)%Z, (priority =? 0)%Z) /\
     wr_upTracks w = [] /\ wr_onClose w = true /\ wr_rtcpCh w = true /\ wr_mid w = mid).
Proof.
  unfold setupNewCodec; cbv zeta.
  set (pc := match Registry.PrimaryReceiver (mtr t) with None => _ | Some _ => _ end).
  assert (Hpc : trackInfo pc.1 = trackInfo (mtr t) /\ receivers pc.1 = receivers (mtr t) /\
                simulcast pc.1 = simulcast (mtr t) /\ muted pc.1 = muted (mtr t) /\
                closing pc.1 = closing (mtr t) /\ closed pc.1 = closed (mtr t)).
  { unfold pc. destruct (Registry.PrimaryReceiver (mtr t)); [done|].
    destruct (0 <? length _)%nat; done. }
  destruct pc as [r1 ev1]; simpl in Hpc. destruct Hpc as (Hti & Hrs & Hsim & Hmu & Hcg & Hcd).
  destruct (dynacastManager t) as [d|]; simpl;
    match goal with |- context [bindSimTracks ?a ?b ?c ?d] =>
      destruct (bindSimTracks_fields a b c d) as (-> & -> & -> & -> & -> & ->) end;
    simpl; rewrite Hti, Hrs, Hsim, Hmu, Hcg, Hcd;
    repeat split; try done;
    eexists; (split; [reflexivity|]); destruct (priority =? 0)%Z; done.
Qed.

End AddReceiverPaths.

Arguments attachUpTrack : simpl never.
Arguments setupNewCodec : simpl never.

Section AddReceiverResults.

Variable RidToSpatialLayer : string -> TrackInfo -> Z.

Lemma AddReceiver_creates receiver track mid t buff rd :
  BufferFactory (params t) (SSRC track) = (Some buff, Some rd) ->
  Registry.Receiver (ToLower (tr_MimeType track)) (mtr t) = None ->
  (0 <= resolvePriority (ToLower (tr_MimeType track)) (Codecs (trackInfo (mtr t))))%Z ->
  let out := AddReceiver RidToSpatialLayer receiver track mid t in
  out.1.1 = true /\
  exists w,
    Registry.Receiver (ToLower (tr_MimeType track)) (mtr out.1.2) = Some w /\
    slot w = (tr_MimeType track,
              resolvePriority (ToLower (tr_MimeType track)) (Codecs (trackInfo (mtr t))),
              (resolvePriority (ToLower (tr_MimeType track)) (Codecs (trackInfo (mtr t))) =? 0)%Z,
              (resolvePriority (ToLower (tr_MimeType track)) (Codecs (trackInfo (mtr t))) =? 0)%Z) /\
    wr_upTracks w = [(track, buff)] /\
    map slot (receivers (mtr out.1.2)) = map slot (receivers (mtr t)) ++ [slot w].
Proof.
  intros Hb Hw Hp out. unfold out.
  rewrite (AddReceiver_new _ _ _ _ _ _ _ Hb Hw Hp). cbv zeta. cbn [fst snd].
  split; [done|].
  set (p := resolvePriority _ _).
  destruct (setupNewCodec_fields receiver track mid (ToLower (tr_MimeType track)) p buff t)
    as (_ & _ & _ & _ & _ & _ & _ & w & Hrs & Hslot & Hup & _).
  set (t1 := (setupNewCodec receiver track mid (ToLower (tr_MimeType track)) p buff t).1) in *.
  destruct (attachUpTrack_fields track (ToLower (tr_MimeType track))
              (RidToSpatialLayer (RID track) (trackInfo (mtr t))) buff t1)
    as (_ & _ & _ & _ & _ & Hrs2 & _).
  exists (Receiver.AddUpTrack track buff w).
  unfold Registry.Receiver. rewrite Hrs2, Hrs.
  assert (Hm : wr_mime w = tr_MimeType track) by (by injection Hslot).
  rewrite find_onReceiver by done. rewrite EqualFold_refl.
  rewrite (find_app_None _ _ _ Hw), Hm, EqualFold_lower_r, EqualFold_refl. simpl.
  repeat split.
  - exact Hslot.
  - by rewrite Hup.
  - rewrite map_slot_onReceiver by done. by rewrite map_app.
Qed.

(** C6: when the buffer factory does not supply both a packet buffer and
    an RTCP reader for the SSRC of the encoding, [AddReceiver] returns
    false and the track is left as it was: no receiver, no change of the
    up-track counter, of the simulcast flag or of the layer map, and no
    listener registered (the only call made is the error log). *)
Theorem missing_buffer_pair_leaves_track_unchanged receiver track mid t :
  (BufferFactory (params t) (SSRC track)).1 = None \/
  (BufferFactory (params t) (SSRC track)).2 = None ->
  let out := AddReceiver RidToSpatialLayer receiver track mid t in
  out.1.1 = false /\
  out.1.2 = t /\
  receivers (mtr out.1.2) = receivers (mtr t) /\
  numUpTracks out.1.2 = numUpTracks t /\
  simulcast (mtr out.1.2) = simulcast (mtr t) /\
  layerSsrcs (mtr out.1.2) = layerSsrcs (mtr t) /\
  out.2 = [Log_Errorw "could not retrieve buffer pair"].
Proof.
  intros H out. unfold out. by rewrite (AddReceiver_no_pair _ _ _ _ _ H).
Qed.


End AddReceiverResults.

(** ** One receiver per mime *)

Lemma Receiver_congr k k' r :
  ToLower k = ToLower k' -> Registry.Receiver k r = Registry.Receiver k' r.
Proof.
  intros H. unfold Registry.Receiver. induction (receivers r) as [|w l IH]; simpl; [done|].
  rewrite (EqualFold_congr_r _ k k' H). by rewrite IH.
Qed.

Lemma find_None_mimes k l :
  List.find (fun w => EqualFold (wr_mime w) k) l = None <-> ToLower k ∉ mimes l.
Proof.
  induction l as [|w l IH]; simpl.
  - split; [intros _; apply not_elem_of_nil | done].
  - rewrite not_elem_of_cons. destruct (EqualFold (wr_mime w) k) eqn:E.
    + apply EqualFold_ToLower in E. split; [done | intros [H _]; congruence].
    + apply EqualFold_false in E. rewrite IH. split; [intros H; split; [congruence | done] | tauto].
Qed.

Lemma mimes_slot l l' : map slot l = map slot l' -> mimes l = mimes l'.
Proof.
  revert l'. induction l as [|a l IH]; intros [|b l']; simpl; try done.
  intros H. inversion H as [[Hm Hp Hs Hx Hrest]].
  by rewrite Hm, (IH l' Hrest).
Qed.

Lemma mimes_as_slots l :
  mimes l = map (fun s : string * Z * bool * bool => ToLower (fst (fst (fst s)))) (map slot l).
Proof. induction l as [|w l IH]; simpl; [done|]. by rewrite IH. Qed.

Lemma NoDup_snoc {A} (l : list A) x : NoDup l -> x ∉ l -> NoDup (l ++ [x]).
Proof.
  intros Hl Hx. apply NoDup_app. split; [done|]. split; [|apply NoDup_singleton].
  intros y Hy Hy'. apply list_elem_of_singleton in Hy'. by subst.
Qed.

Lemma mimes_filter_NoDup (p : WebRTCReceiver -> bool) l :
  NoDup (mimes l) -> NoDup (mimes (List.filter p l)).
Proof.
  induction l as [|w l IH]; simpl; [done|].
  intros H. apply NoDup_cons in H as [Hw Hl].
  destruct (p w); simpl; [|by apply IH].
  apply NoDup_cons. split; [|by apply IH].
  intros Hin. apply Hw. unfold mimes in *.
  apply list_elem_of_fmap in Hin as (y & -> & Hy). apply list_elem_of_fmap.
  exists y. split; [done|]. apply list_elem_of_In. apply list_elem_of_In in Hy.
  by apply filter_In in Hy as [Hy _].
Qed.

Lemma mimes_inj l x y :
  NoDup (mimes l) -> x ∈ l -> y ∈ l -> ToLower (wr_mime x) = ToLower (wr_mime y) -> x = y.
Proof.
  induction l as [|w l IH]; simpl; intros Hnd Hx Hy Heq.
  - by apply elem_of_nil in Hx.
  - apply NoDup_cons in Hnd as [Hw Hl].
    assert (Hmem : forall z, z ∈ l -> ToLower (wr_mime z) ∈ mimes l).
    { intros z Hz. unfold mimes. apply list_elem_of_fmap. by exists z. }
    apply elem_of_cons in Hx as [->|Hx]; apply elem_of_cons in Hy as [->|Hy].
    + done.
    + exfalso. apply Hw. rewrite Heq. by apply Hmem.
    + exfalso. apply Hw. rewrite <- Heq. by apply Hmem.
    + by apply IH.
Qed.

Arguments upTracksOf : simpl never.
Arguments AddReceiver : simpl never.

Section Sequences.

Variable RidToSpatialLayer : string -> TrackInfo -> Z.

Lemma AddReceiver_attaches receiver track mid t buff rd w :
  BufferFactory (params t) (SSRC track) = (Some buff, Some rd) ->
  Registry.Receiver (ToLower (tr_MimeType track)) (mtr t) = Some w ->
  let out := AddReceiver RidToSpatialLayer receiver track mid t in
  out.1.1 = false /\
  Registry.Receiver (ToLower (tr_MimeType track)) (mtr out.1.2)
    = Some (Receiver.AddUpTrack track buff w) /\
  map slot (receivers (mtr out.1.2)) = map slot (receivers (mtr t)).
Proof.
  intros Hb Hw out. unfold out. rewrite (AddReceiver_existing _ _ _ _ _ _ _ _ Hb Hw).
  cbn [fst snd]. split; [done|].
  destruct (attachUpTrack_fields track (ToLower (tr_MimeType track))
              (RidToSpatialLayer (RID track) (trackInfo (mtr t))) buff t)
    as (_ & _ & _ & _ & _ & Hrs & _).
  unfold Registry.Receiver in *. rewrite Hrs. split.
  - rewrite find_onReceiver by done. by rewrite EqualFold_refl, Hw.
  - by apply map_slot_onReceiver.
Qed.

Lemma AddReceiver_frame receiver track mid t :
  let out := AddReceiver RidToSpatialLayer receiver track mid t in
  params out.1.2 = params t /\ trackInfo (mtr out.1.2) = trackInfo (mtr t).
Proof.
  intros out. unfold out.
  destruct (BufferFactory (params t) (SSRC track)) as [[buff|] [rd|]] eqn:Hb;
    try (rewrite AddReceiver_no_pair by (rewrite Hb; simpl; tauto); done).
  destruct (Registry.Receiver (ToLower (tr_MimeType track)) (mtr t)) as [w|] eqn:Hw.
  - rewrite (AddReceiver_existing _ _ _ _ _ _ _ _ Hb Hw). cbn [fst snd].
    by destruct (attachUpTrack_fields track (ToLower (tr_MimeType track))
                   (RidToSpatialLayer (RID track) (trackInfo (mtr t))) buff t)
      as (-> & _ & _ & _ & -> & _).
  - destruct (Z.lt_ge_cases (resolvePriority (ToLower (tr_MimeType track)) (Codecs (trackInfo (mtr t)))) 0) as [Hp|Hp].
    + by rewrite (AddReceiver_unresolved _ _ _ _ _ _ _ Hb Hw Hp).
    + rewrite (AddReceiver_new _ _ _ _ _ _ _ Hb Hw Hp). cbv zeta. cbn [fst snd].
      match goal with |- context [attachUpTrack ?a ?b ?c ?d ?e] =>
        destruct (attachUpTrack_fields a b c d e) as (-> & _ & _ & _ & -> & _) end.
      by destruct (setupNewCodec_fields receiver track mid (ToLower (tr_MimeType track))
                     (resolvePriority (ToLower (tr_MimeType track)) (Codecs (trackInfo (mtr t)))) buff t)
        as (-> & _ & -> & _).
Qed.

Lemma upTracksOf_cons p c rest :
  upTracksOf p (c :: rest) =
  match BufferFactory p (SSRC c.1.2) with
  | (Some buff, Some _) => (c.1.2, buff) :: upTracksOf p rest
  | _ => upTracksOf p rest
  end.
Proof.
  unfold upTracksOf. simpl. by destruct (BufferFactory p (SSRC c.1.2)) as [[b|] [r|]].
Qed.

Lemma addAll_existing calls : forall t w m,
  Forall (fun c : RTPReceiver * TrackRemote * string => EqualFold (tr_MimeType c.1.2) m = true) calls ->
  Registry.Receiver m (mtr t) = Some w ->
  let out := addAll RidToSpatialLayer calls t in
  out.1 = replicate (length calls) false /\
  params out.2 = params t /\
  map slot (receivers (mtr out.2)) = map slot (receivers (mtr t)) /\
  exists w', Registry.Receiver m (mtr out.2) = Some w' /\
             slot w' = slot w /\
             wr_upTracks w' = wr_upTracks w ++ upTracksOf (params t) calls.
Proof.
  induction calls as [|[[receiver track] mid] rest IH]; intros t w m Hall Hw; simpl.
  - repeat split; try done. exists w. by rewrite app_nil_r.
  - apply Forall_cons in Hall as [Hc Hrest]. simpl in Hc. apply EqualFold_ToLower in Hc.
    assert (Hk : ToLower (ToLower (tr_MimeType track)) = ToLower m) by (by rewrite ToLower_idem).
    pose proof (AddReceiver_frame receiver track mid t) as [Hpar _].
    rewrite upTracksOf_cons. cbn [fst snd].
    destruct (BufferFactory (params t) (SSRC track)) as [ob orr] eqn:Hb.
    assert (Hstep : exists w1,
              (AddReceiver RidToSpatialLayer receiver track mid t).1.1 = false /\
              Registry.Receiver m (mtr (AddReceiver RidToSpatialLayer receiver track mid t).1.2) = Some w1 /\
              slot w1 = slot w /\
              map slot (receivers (mtr (AddReceiver RidToSpatialLayer receiver track mid t).1.2))
                = map slot (receivers (mtr t)) /\
              wr_upTracks w1 = wr_upTracks w ++
                match ob, orr with Some buff, Some _ => [(track, buff)] | _, _ => [] end).
    { destruct ob as [buff|]; [destruct orr as [rd|]|].
      - rewrite <- (Receiver_congr _ _ (mtr t) Hk) in Hw.
        destruct (AddReceiver_attaches receiver track mid t buff rd w Hb Hw) as (H1 & H2 & H3).
        exists (Receiver.AddUpTrack track buff w).
        rewrite <- (Receiver_congr _ _ _ Hk). done.
      - rewrite AddReceiver_no_pair by (rewrite Hb; simpl; tauto).
        exists w. by rewrite app_nil_r.
      - rewrite AddReceiver_no_pair by (rewrite Hb; simpl; tauto).
        exists w. by rewrite app_nil_r. }
    destruct (AddReceiver RidToSpatialLayer receiver track mid t) as [[b t1] ev].
    cbn [fst snd] in *. destruct Hstep as (w1 & -> & Hw1 & Hs1 & Hm1 & Hu1).
    specialize (IH t1 w1 m Hrest Hw1). cbv zeta in IH.
    destruct (addAll RidToSpatialLayer rest t1) as [bs t2]. cbn [fst snd] in *.
    destruct IH as (-> & Hp2 & Hm2 & w2 & Hw2 & Hs2 & Hu2).
    repeat split; [congruence | congruence |].
    exists w2. repeat split; [done | congruence |].
    rewrite Hu2, Hu1, Hpar, <- app_assoc. f_equal.
    by destruct ob as [buff|]; [destruct orr as [rd|]|].
Qed.

Lemma addAll_fresh calls t m :
  Forall (fun c : RTPReceiver * TrackRemote * string => EqualFold (tr_MimeType c.1.2) m = true) calls ->
  Registry.Receiver m (mtr t) = None ->
  let out := addAll RidToSpatialLayer calls t in
  let priority := resolvePriority (ToLower m) (Codecs (trackInfo (mtr t))) in
  (out.1 = replicate (length calls) false /\
   ((priority < 0)%Z \/
    Forall (fun c : RTPReceiver * TrackRemote * string => hasBufferPair (params t) c.1.2 = false) calls))
  \/
  (exists pre c post w,
     calls = pre ++ c :: post /\
     Forall (fun c : RTPReceiver * TrackRemote * string => hasBufferPair (params t) c.1.2 = false) pre /\
     hasBufferPair (params t) c.1.2 = true /\
     (0 <= priority)%Z /\
     out.1 = replicate (length pre) false ++ true :: replicate (length post) false /\
     Registry.Receiver m (mtr out.2) = Some w /\
     wr_priority w = priority /\
     wr_upTracks w = upTracksOf (params t) (c :: post)).
Proof.
  intros Hall Hnone out priority. subst out.
  induction calls as [|[[receiver track] mid] rest IH]; simpl.
  - left. split; [done|]. right. constructor.
  - apply Forall_cons in Hall as [Hc Hrest]. simpl in Hc. apply EqualFold_ToLower in Hc.
    assert (Hk : ToLower (ToLower (tr_MimeType track)) = ToLower m) by (by rewrite ToLower_idem).
    specialize (IH Hrest).
    destruct (BufferFactory (params t) (SSRC track)) as [ob orr] eqn:Hb.
    assert (Hnopair : ob = None \/ orr = None ->
              hasBufferPair (params t) track = false /\
              AddReceiver RidToSpatialLayer receiver track mid t
              = (false, t, [Log_Errorw "could not retrieve buffer pair"])).
    { intros H. split.
      - unfold hasBufferPair. rewrite Hb. by destruct H as [-> | ->]; [|destruct ob].
      - apply AddReceiver_no_pair. rewrite Hb. simpl. tauto. }
    assert (Hskip : forall ev, AddReceiver RidToSpatialLayer receiver track mid t = (false, t, ev) ->
              ((priority < 0)%Z \/ hasBufferPair (params t) track = false) ->
              (let '(b, t1, _) := AddReceiver RidToSpatialLayer receiver track mid t in
               let '(bs, t2) := addAll RidToSpatialLayer rest t1 in (b :: bs, t2)).1
              = false :: (addAll RidToSpatialLayer rest t).1 /\
              (let '(b, t1, _) := AddReceiver RidToSpatialLayer receiver track mid t in
               let '(bs, t2) := addAll RidToSpatialLayer rest t1 in (b :: bs, t2)).2
              = (addAll RidToSpatialLayer rest t).2).
    { intros ev -> _. by destruct (addAll RidToSpatialLayer rest t). }
    destruct ob as [buff|]; [destruct orr as [rd|]|].
    + rewrite <- (Receiver_congr _ _ (mtr t) Hk) in Hnone.
      destruct (Z.lt_ge_cases (resolvePriority (ToLower (tr_MimeType track)) (Codecs (trackInfo (mtr t)))) 0) as [Hp|Hp].
      * destruct (Hskip _ (AddReceiver_unresolved _ _ _ _ _ _ _ Hb Hnone Hp)) as [-> Hst].
        { left. unfold priority. by rewrite <- Hc. }
        left. rewrite Hc in Hp. split; [|by left].
        destruct IH as [[-> _] | (pre & c & post & w & _ & _ & _ & Hge & _)]; [done|].
        unfold priority in Hge. lia.
      * destruct (AddReceiver_creates RidToSpatialLayer receiver track mid t buff rd Hb Hnone Hp)
          as (Htrue & w & Hw & Hslot & Hup & _).
        pose proof (AddReceiver_frame receiver track mid t) as [Hpar _].
        destruct (AddReceiver RidToSpatialLayer receiver track mid t) as [[b t1] ev].
        cbn [fst snd] in *. subst b.
        rewrite (Receiver_congr _ _ (mtr t1) Hk) in Hw.
        destruct (addAll_existing rest t1 w m Hrest Hw) as (Hbs & _ & _ & w' & Hw' & Hs' & Hu').
        destruct (addAll RidToSpatialLayer rest t1) as [bs t2]. cbn [fst snd] in *.
        right. exists [], (receiver, track, mid), rest, w'. simpl.
        repeat split; try done.
        -- unfold hasBufferPair. by rewrite Hb.
        -- unfold priority. by rewrite <- Hc.
        -- by rewrite Hbs.
        -- unfold slot in Hs', Hslot. unfold priority. rewrite <- Hc. congruence.
        -- rewrite upTracksOf_cons. cbn [fst snd]. rewrite Hb, Hu', Hup, Hpar. done.
    + destruct (Hnopair (or_intror eq_refl)) as [Hhp Hadd].
      destruct (Hskip _ Hadd (or_intror Hhp)) as [-> ->].
      destruct IH as [[Hbs Hwhy] | (pre & c & post & w & -> & Hpre & Hc' & Hge & Hbs & Hw & Hpr & Hu)].
      * left. rewrite Hbs. split; [done|].
        destruct Hwhy as [?|?]; [by left | right; by constructor].
      * right. exists ((receiver, track, mid) :: pre), c, post, w. simpl.
        repeat split; try done; [by constructor | by rewrite Hbs].
    + destruct (Hnopair (or_introl eq_refl)) as [Hhp Hadd].
      destruct (Hskip _ Hadd (or_intror Hhp)) as [-> ->].
      destruct IH as [[Hbs Hwhy] | (pre & c & post & w & -> & Hpre & Hc' & Hge & Hbs & Hw & Hpr & Hu)].
      * left. rewrite Hbs. split; [done|].
        destruct Hwhy as [?|?]; [by left | right; by constructor].
      * right. exists ((receiver, track, mid) :: pre), c, post, w. simpl.
        repeat split; try done; [by constructor | by rewrite Hbs].
Qed.

End Sequences.

(** ** Every operation keeps the registry invariant *)

Arguments step : simpl never.

Section Steps.

Variable RidToSpatialLayer : string -> TrackInfo -> Z.
Variable VideoQualityToSpatialLayer : VideoQuality -> TrackInfo -> Z.

Lemma setMaxExpectedLayers_fields qs : forall r,
  let r' := (setMaxExpectedLayers VideoQualityToSpatialLayer qs r).1 in
  trackInfo r' = trackInfo r /\
  map slot (receivers r') = map slot (receivers r) /\
  layerSsrcs r' = layerSsrcs r /\
  simulcast r' = simulcast r /\
  muted r' = muted r /\
  closing r' = closing r /\
  closed r' = closed r.
Proof.
  induction qs as [|q rest IH]; intros r; simpl; [done|].
  destruct (Registry.Receiver (CodecMime q) r); [|apply IH].
  match goal with |- context [setMaxExpectedLayers _ rest ?r1] =>
    specialize (IH r1); destruct (setMaxExpectedLayers VideoQualityToSpatialLayer rest r1) as [r2 ev] end.
  simpl in *. destruct IH as (-> & -> & -> & -> & -> & -> & ->).
  repeat split. by apply map_slot_onReceiver.
Qed.

Lemma handler_fields f u t :
  let t' := (handler VideoQualityToSpatialLayer f u t).1 in
  params t' = params t /\
  numUpTracks t' = numUpTracks t /\
  dynacastManager t' = dynacastManager t /\
  trackInfo (mtr t') = trackInfo (mtr t) /\
  map slot (receivers (mtr t')) = map slot (receivers (mtr t)) /\
  layerSsrcs (mtr t') = layerSsrcs (mtr t) /\
  simulcast (mtr t') = simulcast (mtr t) /\
  muted (mtr t') = muted (mtr t).
Proof.
  unfold handler.
  pose proof (setMaxExpectedLayers_fields (maxSubscribedQualities u) (mtr t)) as H.
  destruct (setMaxExpectedLayers VideoQualityToSpatialLayer (maxSubscribedQualities u) (mtr t)) as [r ev].
  simpl in *. destruct H as (-> & -> & -> & -> & -> & _). done.
Qed.

Lemma Forall_resolved_filter codecs (p : WebRTCReceiver -> bool) l :
  Forall (resolved codecs) (map slot l) -> Forall (resolved codecs) (map slot (List.filter p l)).
Proof.
  induction l as [|w l IH]; simpl; [done|].
  intros H. apply Forall_cons in H as [Hw Hl].
  destruct (p w); simpl; [apply Forall_cons; split; [done | by apply IH] | by apply IH].
Qed.

Lemma registryInv_slots t t' :
  trackInfo (mtr t') = trackInfo (mtr t) ->
  map slot (receivers (mtr t')) = map slot (receivers (mtr t)) ->
  registryInv t -> registryInv t'.
Proof.
  intros Hti Hs [Hnd Hres]. unfold registryInv.
  by rewrite Hti, Hs, (mimes_slot _ _ Hs).
Qed.

Lemma AddReceiver_inv receiver track mid t :
  registryInv t -> registryInv (AddReceiver RidToSpatialLayer receiver track mid t).1.2.
Proof.
  intros Hinv.
  destruct (BufferFactory (params t) (SSRC track)) as [[buff|] [rd|]] eqn:Hb;
    try (rewrite AddReceiver_no_pair by (rewrite Hb; simpl; tauto); done).
  pose proof (AddReceiver_frame RidToSpatialLayer receiver track mid t) as [_ Hti].
  destruct (Registry.Receiver (ToLower (tr_MimeType track)) (mtr t)) as [w|] eqn:Hw.
  - destruct (AddReceiver_attaches RidToSpatialLayer receiver track mid t buff rd w Hb Hw) as (_ & _ & Hs).
    by apply (registryInv_slots t).
  - destruct (Z.lt_ge_cases (resolvePriority (ToLower (tr_MimeType track)) (Codecs (trackInfo (mtr t)))) 0) as [Hp|Hp].
    + by rewrite (AddReceiver_unresolved _ _ _ _ _ _ _ Hb Hw Hp).
    + destruct (AddReceiver_creates RidToSpatialLayer receiver track mid t buff rd Hb Hw Hp)
        as (_ & w & _ & Hslot & _ & Hs).
      destruct Hinv as [Hnd Hres]. unfold registryInv.
      set (t' := (AddReceiver RidToSpatialLayer receiver track mid t).1.2) in *.
      rewrite Hti, Hs. split.
      * assert (Hm : mimes (receivers (mtr t')) = mimes (receivers (mtr t)) ++ [ToLower (tr_MimeType track)]).
        { rewrite (mimes_as_slots (receivers (mtr t'))), Hs, map_app, <- mimes_as_slots.
          by rewrite Hslot. }
        rewrite Hm. apply NoDup_snoc; [done|].
        apply find_None_mimes in Hw. by rewrite ToLower_idem in Hw.
      * apply Forall_app. split; [done|]. apply Forall_singleton.
        rewrite Hslot. simpl. done.
Qed.

Lemma onCloseHandler_fields mime t :
  let t' := (onCloseHandler mime t).1 in
  params t' = params t /\
  trackInfo (mtr t') = trackInfo (mtr t) /\
  receivers (mtr t') = List.filter (fun w => negb (EqualFold (wr_mime w) mime)) (receivers (mtr t)) /\
  simulcast (mtr t') = simulcast (mtr t).
Proof.
  unfold onCloseHandler, Registry.TryClose. simpl.
  destruct (List.filter _ (receivers (mtr t))) eqn:E; simpl;
    destruct (dynacastManager t); simpl; rewrite ?E; done.
Qed.

Lemma emitQualityChange_fields t :
  let t' := (emitQualityChange VideoQualityToSpatialLayer t).1 in
  params t' = params t /\
  numUpTracks t' = numUpTracks t /\
  trackInfo (mtr t') = trackInfo (mtr t) /\
  map slot (receivers (mtr t')) = map slot (receivers (mtr t)) /\
  layerSsrcs (mtr t') = layerSsrcs (mtr t) /\
  simulcast (mtr t') = simulcast (mtr t) /\
  muted (mtr t') = muted (mtr t).
Proof.
  unfold emitQualityChange.
  destruct (dynacastManager t) as [d|]; [|done].
  destruct (dm_queue d) as [|u rest]; [done|].
  destruct (dm_handler d) as [f|]; [|done].
  match goal with |- context [handler _ f u ?t1] =>
    destruct (handler_fields f u t1) as (-> & -> & _ & -> & -> & -> & -> & ->) end.
  done.
Qed.

Lemma step_frame o t :
  let t' := (step RidToSpatialLayer VideoQualityToSpatialLayer o t).1 in
  params t' = params t /\ trackInfo (mtr t') = trackInfo (mtr t).
Proof.
  destruct o as [receiver track mid|f| |b|b|mime|]; unfold step.
  - pose proof (AddReceiver_frame RidToSpatialLayer receiver track mid t) as H.
    by destruct (AddReceiver RidToSpatialLayer receiver track mid t) as [[b t'] ev].
  - unfold OnSubscribedMaxQualityChange. by destruct (dynacastManager t).
  - unfold Restart. simpl. by destruct (dynacastManager t).
  - unfold Close. by destruct (dynacastManager t).
  - unfold SetMuted. by destruct b, (dynacastManager t).
  - by destruct (onCloseHandler_fields mime t) as (-> & -> & _).
  - by destruct (emitQualityChange_fields t) as (-> & _ & -> & _).
Qed.

Lemma step_inv o t :
  registryInv t -> registryInv (step RidToSpatialLayer VideoQualityToSpatialLayer o t).1.
Proof.
  intros Hinv. destruct o as [receiver track mid|f| |b|b|mime|]; unfold step.
  - pose proof (AddReceiver_inv receiver track mid t Hinv) as H.
    by destruct (AddReceiver RidToSpatialLayer receiver track mid t) as [[b t'] ev].
  - unfold OnSubscribedMaxQualityChange. by destruct (dynacastManager t).
  - unfold Restart. simpl. by destruct (dynacastManager t).
  - unfold Close. destruct (dynacastManager t); split; simpl; constructor.
  - unfold SetMuted. by destruct b, (dynacastManager t).
  - destruct (onCloseHandler_fields mime t) as (_ & Hti & Hrs & _).
    destruct Hinv as [Hnd Hres]. unfold registryInv. rewrite Hti, Hrs. split.
    + by apply mimes_filter_NoDup.
    + by apply Forall_resolved_filter.
  - destruct (emitQualityChange_fields t) as (_ & _ & Hti & Hs & _).
    by apply (registryInv_slots t).
Qed.

Lemma step_simulcast o t :
  simulcast (mtr t) = true ->
  simulcast (mtr (step RidToSpatialLayer VideoQualityToSpatialLayer o t).1) = true.
Proof.
  intros Hs. destruct o as [receiver track mid|f| |b|b|mime|]; unfold step.
  - destruct (BufferFactory (params t) (SSRC track)) as [[buff|] [rd|]] eqn:Hb;
      try (rewrite AddReceiver_no_pair by (rewrite Hb; simpl; tauto); done).
    destruct (Registry.Receiver (ToLower (tr_MimeType track)) (mtr t)) as [w|] eqn:Hw.
    + rewrite (AddReceiver_existing _ _ _ _ _ _ _ _ Hb Hw).
      match goal with |- context [attachUpTrack ?a ?b ?c ?d ?e] =>
        destruct (attachUpTrack_fields a b c d e) as (_ & _ & _ & _ & _ & _ & H & _) end.
      cbn [fst snd] in *. by rewrite H, Hs.
    + destruct (Z.lt_ge_cases (resolvePriority (ToLower (tr_MimeType track)) (Codecs (trackInfo (mtr t)))) 0) as [Hp|Hp].
      * by rewrite (AddReceiver_unresolved _ _ _ _ _ _ _ Hb Hw Hp).
      * rewrite (AddReceiver_new _ _ _ _ _ _ _ Hb Hw Hp). cbv zeta.
        match goal with |- context [attachUpTrack ?a ?b ?c ?d ?e] =>
          destruct (attachUpTrack_fields a b c d e) as (_ & _ & _ & _ & _ & _ & H & _) end.
        cbn [fst snd] in *. rewrite H.
        destruct (setupNewCodec_fields receiver track mid (ToLower (tr_MimeType track))
                    (resolvePriority (ToLower (tr_MimeType track)) (Codecs (trackInfo (mtr t)))) buff t)
          as (_ & _ & _ & -> & _).
        by rewrite Hs.
  - unfold OnSubscribedMaxQualityChange. by destruct (dynacastManager t).
  - unfold Restart. simpl. by destruct (dynacastManager t).
  - unfold Close. by destruct (dynacastManager t).
  - unfold SetMuted. by destruct b, (dynacastManager t).
  - by destruct (onCloseHandler_fields mime t) as (_ & _ & _ & ->).
  - by destruct (emitQualityChange_fields t) as (_ & _ & _ & _ & _ & -> & _).
Qed.

Lemma run_inv ops : forall t,
  registryInv t -> registryInv (run RidToSpatialLayer VideoQualityToSpatialLayer ops t).1.
Proof.
  induction ops as [|o rest IH]; intros t Hinv; simpl; [done|].
  pose proof (step_inv o t Hinv) as H1.
  destruct (step RidToSpatialLayer VideoQualityToSpatialLayer o t) as [t1 ev1].
  specialize (IH t1 H1).
  by destruct (run RidToSpatialLayer VideoQualityToSpatialLayer rest t1) as [t2 ev2].
Qed.

Lemma run_frame ops : forall t,
  let t' := (run RidToSpatialLayer VideoQualityToSpatialLayer ops t).1 in
  params t' = params t /\ trackInfo (mtr t') = trackInfo (mtr t).
Proof.
  induction ops as [|o rest IH]; intros t; simpl; [done|].
  pose proof (step_frame o t) as H1.
  destruct (step RidToSpatialLayer VideoQualityToSpatialLayer o t) as [t1 ev1].
  specialize (IH t1).
  destruct (run RidToSpatialLayer VideoQualityToSpatialLayer rest t1) as [t2 ev2].
  simpl in *. destruct IH as [-> ->]. done.
Qed.

Lemma addAll_inv calls : forall t,
  registryInv t -> registryInv (addAll RidToSpatialLayer calls t).2.
Proof.
  induction calls as [|[[receiver track] mid] rest IH]; intros t Hinv; simpl; [done|].
  pose proof (AddReceiver_inv receiver track mid t Hinv) as H1.
  destruct (AddReceiver RidToSpatialLayer receiver track mid t) as [[b t1] ev].
  specialize (IH t1 H1).
  by destruct (addAll RidToSpatialLayer rest t1) as [bs t2].
Qed.

End Steps.

(** ** Claims about sequences of calls *)

Lemma NewMediaTrack_inv p ti : registryInv (NewMediaTrack p ti).
Proof. split; constructor. Qed.

Lemma resolvePriority_zero m codecs :
  fallbackApplies codecs = false ->
  resolvePriority m codecs = 0%Z ->
  exists c rest, codecs = c :: rest /\ EqualFold m (MimeType c) = true.
Proof.
  intros Hfb Hp. destruct codecs as [|c rest]; [done|].
  exists c, rest. split; [done|].
  unfold resolvePriority in Hp. simpl in Hp.
  destruct (EqualFold m (MimeType c)); [done|]. exfalso.
  change (0 + 1)%Z with 1%Z in Hp.
  destruct (findCodecIndex_range m rest 1) as [E|E]; [lia | |].
  - rewrite E in Hp. simpl in Hp, Hfb. destruct rest; [|lia]. rewrite Hfb in Hp. lia.
  - destruct (Z.ltb_spec (findCodecIndex m rest 1) 0); lia.
Qed.

Section SequenceClaims.

Variable RidToSpatialLayer : string -> TrackInfo -> Z.
Variable VideoQualityToSpatialLayer : VideoQuality -> TrackInfo -> Z.




End SequenceClaims.

(** ** The layer map *)

Lemma attachUpTrack_layer track mime layer buff t :
  let t' := (attachUpTrack track mime layer buff t).1 in
  (simulcast (mtr t') = true ->
   layerSsrcs (mtr t') !! (mime, RID track)
   = Some (default (SSRC track) (layerSsrcs (mtr t) !! (mime, RID track)))) /\
  (simulcast (mtr t') = false -> layerSsrcs (mtr t') = layerSsrcs (mtr t)).
Proof.
  unfold attachUpTrack, Registry.IsSimulcast; cbv zeta; cbn [fst mtr set_mtr].
  destruct ((1 <? Inc (numUpTracks t))%Z || negb (String.eqb (RID track) "")) eqn:E.
  - cbn [simulcast Registry.SetSimulcast].
    split; [intros _; by rewrite SetLayerSsrc_lookup|].
    match goal with |- context [Registry.SetLayerSsrc ?a ?b ?c ?r] =>
      destruct (SetLayerSsrc_fields a b c r) as (_ & _ & _ & _ & Hs & _) end.
    simpl in *. intros H. congruence.
  - cbn [simulcast Registry.set_receivers].
    destruct (simulcast (mtr t)) eqn:Es.
    + split; [intros _; by rewrite SetLayerSsrc_lookup|].
      match goal with |- context [Registry.SetLayerSsrc ?a ?b ?c ?r] =>
        destruct (SetLayerSsrc_fields a b c r) as (_ & _ & _ & _ & Hs & _) end.
      simpl in *. intros H. congruence.
    + simpl. rewrite Es. done.
Qed.

Lemma setupNewCodec_layer receiver track mid mime priority buff t :
  let t1 := (setupNewCodec receiver track mid mime priority buff t).1 in
  (forall k s, layerSsrcs (mtr t) !! k = Some s -> layerSsrcs (mtr t1) !! k = Some s) /\
  ((forall ssrc info, (ssrc, info) ∈ SimTracks (params t) -> Mid info <> mid) ->
   layerSsrcs (mtr t1) = layerSsrcs (mtr t)).
Proof.
  unfold setupNewCodec; cbv zeta.
  set (pc := match Registry.PrimaryReceiver (mtr t) with None => _ | Some _ => _ end).
  assert (Hpc : layerSsrcs pc.1 = layerSsrcs (mtr t)).
  { unfold pc. destruct (Registry.PrimaryReceiver (mtr t)); [done|].
    destruct (0 <? length _)%nat; done. }
  destruct pc as [r1 ev1]; simpl in Hpc.
  destruct (dynacastManager t) as [d|]; simpl; split.
  - intros k s Hk. apply bindSimTracks_keeps. simpl. congruence.
  - intros Hno. rewrite bindSimTracks_other_mid by done. simpl. done.
  - intros k s Hk. apply bindSimTracks_keeps. simpl. congruence.
  - intros Hno. rewrite bindSimTracks_other_mid by done. simpl. done.
Qed.

Section LayerClaims.

Variable RidToSpatialLayer : string -> TrackInfo -> Z.


End LayerClaims.

(** ** Close *)

Lemma Close_Close b t : (Close b (Close b t).1).1 = (Close b t).1.
Proof. unfold Close. destruct (dynacastManager t); reflexivity. Qed.

Lemma Close_trace b t d :
  dynacastManager t = Some d ->
  (Close b t).2 = [Registry_SetClosing; Dynacast_Close; Registry_ClearAllReceivers b; Registry_Close] /\
  dynacastManager (Close b t).1 = Some (Dynacast.Close d).
Proof. intros H. unfold Close. by rewrite H. Qed.

Lemma filter_length_app {A} (p : A -> bool) l1 l2 :
  length (List.filter p (l1 ++ l2)) = (length (List.filter p l1) + length (List.filter p l2))%nat.
Proof. by rewrite List.filter_app, length_app. Qed.

Lemma run_cons RidToSpatialLayer VideoQualityToSpatialLayer o ops t :
  run RidToSpatialLayer VideoQualityToSpatialLayer (o :: ops) t =
  ((run RidToSpatialLayer VideoQualityToSpatialLayer ops
      (step RidToSpatialLayer VideoQualityToSpatialLayer o t).1).1,
   (step RidToSpatialLayer VideoQualityToSpatialLayer o t).2 ++
   (run RidToSpatialLayer VideoQualityToSpatialLayer ops
      (step RidToSpatialLayer VideoQualityToSpatialLayer o t).1).2).
Proof.
  simpl. destruct (step RidToSpatialLayer VideoQualityToSpatialLayer o t) as [t1 ev1].
  simpl. by destruct (run RidToSpatialLayer VideoQualityToSpatialLayer ops t1).
Qed.

Section CloseClaims.

Variable RidToSpatialLayer : string -> TrackInfo -> Z.
Variable VideoQualityToSpatialLayer : VideoQuality -> TrackInfo -> Z.


End CloseClaims.

(** ** Quality changes and RTCP *)

Section QualityClaims.

Variable VideoQualityToSpatialLayer : VideoQuality -> TrackInfo -> Z.
Variable Unmarshal : list Byte.byte -> list RtcpPacket + string.

Lemma setMaxExpectedLayers_quiet qs : forall r,
  List.filter isHandlerCall (setMaxExpectedLayers VideoQualityToSpatialLayer qs r).2 = [].
Proof.
  induction qs as [|q rest IH]; intros r; simpl; [done|].
  destruct (Registry.Receiver (CodecMime q) r); [|apply IH].
  match goal with |- context [setMaxExpectedLayers _ rest ?r1] =>
    specialize (IH r1); destruct (setMaxExpectedLayers VideoQualityToSpatialLayer rest r1) as [r2 ev] end.
  simpl in *. done.
Qed.

Lemma handler_trace f u t :
  List.filter isHandlerCall (handler VideoQualityToSpatialLayer f u t).2 =
  match f with
  | Some fid => if muted (mtr t) then [] else [Handler_Call fid (ID t) u]
  | None => []
  end.
Proof.
  unfold handler, Registry.IsMuted.
  pose proof (setMaxExpectedLayers_quiet (maxSubscribedQualities u) (mtr t)) as H.
  destruct (setMaxExpectedLayers VideoQualityToSpatialLayer (maxSubscribedQualities u) (mtr t)) as [r ev].
  cbn [fst snd] in *. rewrite List.filter_app, H, app_nil_r.
  destruct f as [fid|]; [|done]. by destruct (muted (mtr t)).
Qed.


Lemma dispatchPackets_spec pkts : forall b,
  (dispatchPackets pkts b).2
  = map (fun x : Z * Z => Buffer_SetSenderReportData x.1 x.2) (senderReports pkts) /\
  lastSenderReport (dispatchPackets pkts b).1
  = match last (senderReports pkts) with
    | Some x => Some x
    | None => lastSenderReport b
    end.
Proof.
  induction pkts as [|pkt rest IH]; intros b; [done|].
  destruct pkt as [|rtpTime ntpTime|]; simpl; try apply IH.
  specialize (IH (SetSenderReportData rtpTime ntpTime b)).
  destruct (dispatchPackets rest (SetSenderReportData rtpTime ntpTime b)) as [b' ev].
  cbn [fst snd] in *. destruct IH as [-> ->].
  unfold senderReports. cbn [omap]. fold (senderReports rest).
  rewrite last_cons. split; [done|]. by destruct (last (senderReports rest)).
Qed.

(** C9: the RTCP consumer dispatches the decoded packets by type: every
    sender report records its RTP and NTP time on the buffer, so that the
    buffer ends with the timing of the last one; source descriptions and
    other packets are passed over; a payload that does not unmarshal is
    logged and dropped.  The track is the same afterwards in every case. *)
Theorem rtcp_dispatch bytes t b :
  let out := onPacket Unmarshal bytes t b in
  out.1.1 = t /\
  (forall err, Unmarshal bytes = inr err ->
     out.1.2 = b /\ out.2 = [Log_Errorw "could not unmarshal RTCP"]) /\
  (forall pkts, Unmarshal bytes = inl pkts ->
     out.2 = map (fun x : Z * Z => Buffer_SetSenderReportData x.1 x.2) (senderReports pkts) /\
     lastSenderReport out.1.2
     = match last (senderReports pkts) with
       | Some x => Some x
       | None => lastSenderReport b
       end) /\
  (forall rtpTime ntpTime, Unmarshal bytes = inl [SenderReport rtpTime ntpTime] ->
     lastSenderReport out.1.2 = Some (rtpTime, ntpTime)) /\
  (Unmarshal bytes = inl [SourceDescription] -> out.1.2 = b /\ out.2 = []).
Proof.
  cbv zeta. unfold onPacket.
  destruct (Unmarshal bytes) as [pkts|err] eqn:E.
  - pose proof (dispatchPackets_spec pkts b) as [Hev Hb].
    destruct (dispatchPackets pkts b) as [b' ev] eqn:Hd. cbn [fst snd] in *.
    split; [done|]. split; [intros err [=]|].
    split; [by intros pkts' [= <-]|].
    split; [intros r n [= ->]; by rewrite Hb|].
    intros [= ->]. simpl in Hd. by injection Hd as <- <-.
  - cbn [fst snd]. split; [done|]. split; [done|].
    split; [intros pkts [=]|]. split; [intros r n [=] | intros [=]].
Qed.

Lemma setMaxExpectedLayers_lookup qs : forall r k,
  Registry.Receiver k (setMaxExpectedLayers VideoQualityToSpatialLayer qs r).1 =
  match last (List.filter (fun q => EqualFold (CodecMime q) k) qs) with
  | Some ql =>
      Receiver.SetMaxExpectedSpatialLayer
        (VideoQualityToSpatialLayer (Quality ql) (trackInfo r)) <$> Registry.Receiver k r
  | None => Registry.Receiver k r
  end.
Proof.
  induction qs as [|q rest IH]; intros r k; [done|].
  cbn [setMaxExpectedLayers List.filter].
  destruct (Registry.Receiver (CodecMime q) r) as [w|] eqn:Hq.
  - match goal with |- context [setMaxExpectedLayers _ rest ?r1] =>
      specialize (IH r1 k); set (r' := r1) in * end.
    destruct (setMaxExpectedLayers VideoQualityToSpatialLayer rest r') as [r2 ev].
    cbn [fst] in *. rewrite IH.
    assert (Hk : Registry.Receiver k r' =
                 if EqualFold (CodecMime q) k
                 then Receiver.SetMaxExpectedSpatialLayer
                        (VideoQualityToSpatialLayer (Quality q) (trackInfo r)) <$> Registry.Receiver k r
                 else Registry.Receiver k r).
    { unfold r', Registry.Receiver. simpl. by rewrite find_onReceiver. }
    rewrite Hk. change (trackInfo r') with (trackInfo r).
    destruct (EqualFold (CodecMime q) k); [|done].
    rewrite last_cons.
    destruct (last (List.filter (fun q0 => EqualFold (CodecMime q0) k) rest)); [|done].
    by destruct (Registry.Receiver k r).
  - rewrite IH. destruct (EqualFold (CodecMime q) k) eqn:E; [|done].
    apply EqualFold_ToLower in E. rewrite <- (Receiver_congr _ _ r E), Hq.
    rewrite last_cons.
    by destruct (last (List.filter (fun q0 => EqualFold (CodecMime q0) k) rest)).
Qed.

Lemma setMaxExpectedLayers_receivers qs : forall r r',
  receivers r = receivers r' -> trackInfo r = trackInfo r' ->
  receivers (setMaxExpectedLayers VideoQualityToSpatialLayer qs r).1
  = receivers (setMaxExpectedLayers VideoQualityToSpatialLayer qs r').1.
Proof.
  induction qs as [|q rest IH]; intros r r' Hr Hti; [done|].
  cbn [setMaxExpectedLayers]. unfold Registry.Receiver. rewrite Hr, Hti.
  destruct (List.find _ (receivers r')); [|by apply IH].
  match goal with |- receivers (let '(_, _) := setMaxExpectedLayers _ _ ?a in _).1
                     = receivers (let '(_, _) := setMaxExpectedLayers _ _ ?b in _).1 =>
    specialize (IH a b eq_refl Hti);
    destruct (setMaxExpectedLayers VideoQualityToSpatialLayer rest a),
             (setMaxExpectedLayers VideoQualityToSpatialLayer rest b) end.
  done.
Qed.

(** C10: when the quality controller reports a new set of maximum
    qualities, every registered receiver of a reported mime gets, as its
    maximum expected spatial layer, the layer derived from the quality
    reported for its codec (from the last entry, when a codec is reported
    more than once).  The update does not depend on the mute state or on
    the external handler. *)
Theorem receiver_ceiling_follows_demand f u t q w :
  q ∈ maxSubscribedQualities u ->
  Registry.Receiver (CodecMime q) (mtr t) = Some w ->
  let out := handler VideoQualityToSpatialLayer f u t in
  let sameCodec := fun q' => EqualFold (CodecMime q') (CodecMime q) in
  (exists ql,
     last (List.filter sameCodec (maxSubscribedQualities u)) = Some ql /\
     Registry.Receiver (CodecMime q) (mtr out.1)
     = Some (Receiver.SetMaxExpectedSpatialLayer
               (VideoQualityToSpatialLayer (Quality ql) (trackInfo (mtr t))) w)) /\
  ((forall q', q' ∈ maxSubscribedQualities u -> sameCodec q' = true -> q' = q) ->
   Registry.Receiver (CodecMime q) (mtr out.1)
   = Some (Receiver.SetMaxExpectedSpatialLayer
             (VideoQualityToSpatialLayer (Quality q) (trackInfo (mtr t))) w)) /\
  (forall f' b,
     receivers (mtr (handler VideoQualityToSpatialLayer f' u
                       (set_mtr (Registry.SetMuted b (mtr t)) t)).1)
     = receivers (mtr out.1)).
Proof.
  intros Hq Hw. cbv zeta.
  assert (Hmtr : forall f0 t0, mtr (handler VideoQualityToSpatialLayer f0 u t0).1
            = (setMaxExpectedLayers VideoQualityToSpatialLayer (maxSubscribedQualities u) (mtr t0)).1).
  { intros f0 t0. unfold handler.
    by destruct (setMaxExpectedLayers VideoQualityToSpatialLayer (maxSubscribedQualities u) (mtr t0)). }
  rewrite Hmtr, setMaxExpectedLayers_lookup, Hw.
  assert (Hne : exists ql,
            last (List.filter (fun q' => EqualFold (CodecMime q') (CodecMime q)) (maxSubscribedQualities u))
            = Some ql /\ ql ∈ maxSubscribedQualities u /\
            EqualFold (CodecMime ql) (CodecMime q) = true).
  { destruct (last (List.filter (fun q' => EqualFold (CodecMime q') (CodecMime q)) (maxSubscribedQualities u)))
      as [ql|] eqn:El.
    - exists ql. split; [done|]. apply last_Some in El as [l' El].
      assert (Hin : In ql (List.filter (fun q' => EqualFold (CodecMime q') (CodecMime q)) (maxSubscribedQualities u))).
      { rewrite El. apply in_or_app. right. by left. }
      apply filter_In in Hin as [Hin He]. split; [by apply list_elem_of_In | done].
    - exfalso. apply last_None in El.
      assert (Hin : In q (List.filter (fun q' => EqualFold (CodecMime q') (CodecMime q)) (maxSubscribedQualities u))).
      { apply filter_In. split; [by apply list_elem_of_In | apply EqualFold_refl]. }
      by rewrite El in Hin. }
  destruct Hne as (ql & El & Hin & He). rewrite El. simpl.
  split; [by exists ql|]. split.
  - intros Huniq. by rewrite (Huniq ql Hin He).
  - intros f' b. rewrite Hmtr. by apply setMaxExpectedLayers_receivers.
Qed.

End QualityClaims.

(** ** The claims on the concrete track *)








Lemma missing_buffer_pair_witness :
  (AddReceiver Demo.RidToSpatialLayer Demo.receiver (Demo.encoding "video/vp8" "f" 9999) "0"
     Demo.simulcastTrack).1.2 = Demo.simulcastTrack.
Proof.
  apply (missing_buffer_pair_leaves_track_unchanged Demo.RidToSpatialLayer Demo.receiver
           (Demo.encoding "video/vp8" "f" 9999) "0" Demo.simulcastTrack).
  left. reflexivity.
Defined.





Lemma rtcp_dispatch_witness :
  lastSenderReport
    (onPacket Demo.Unmarshal [Byte.xc9] Demo.videoTrack {| lastSenderReport := None |}).1.2
  = Some (3%Z, 4%Z).
Proof.
  destruct (rtcp_dispatch Demo.Unmarshal [Byte.xc9] Demo.videoTrack {| lastSenderReport := None |})
    as (_ & _ & H & _).
  exact (proj2 (H _ eq_refl)).
Defined.

Lemma receiver_ceiling_follows_demand_witness :
  exists w,
    Registry.Receiver "VIDEO/VP8"
      (mtr (handler Demo.VideoQualityToSpatialLayer (Some 7%nat) Demo.demand
              (SetMuted true Demo.simulcastTrack).1).1) = Some w /\
    wr_maxExpectedSpatialLayer w = Some 2%Z.
Proof.
  destruct (Registry.Receiver "VIDEO/VP8" (mtr (SetMuted true Demo.simulcastTrack).1))
    as [w|] eqn:E; [|vm_compute in E; discriminate].
  destruct (receiver_ceiling_follows_demand Demo.VideoQualityToSpatialLayer (Some 7%nat) Demo.demand
              (SetMuted true Demo.simulcastTrack).1
              {| CodecMime := "VIDEO/VP8"; Quality := VideoQuality_HIGH |} w)
    as (_ & H & _).
  - by left.
  - exact E.
  - eexists. split.
    + apply H. intros q' Hin _. by apply list_elem_of_singleton in Hin.
    + reflexivity.
Defined.

(** * Further properties of the code *)

(** ** Priority resolution, as a function *)

Lemma findCodecIndex_spec mime codecs k :
  (findCodecIndex mime codecs k = (-1)%Z /\
   forall c, c ∈ codecs -> EqualFold mime (MimeType c) = false) \/
  (exists i c,
     findCodecIndex mime codecs k = (k + Z.of_nat i)%Z /\
     codecs !! i = Some c /\
     EqualFold mime (MimeType c) = true /\
     forall j c', (j < i)%nat -> codecs !! j = Some c' -> EqualFold mime (MimeType c') = false).
Proof.
  revert k. induction codecs as [|c0 rest IH]; intros k; simpl.
  - left. split; [done|]. intros c Hc. by apply elem_of_nil in Hc.
  - destruct (EqualFold mime (MimeType c0)) eqn:E.
    + right. exists 0%nat, c0. repeat split; [lia | done |]. intros j c' Hj. lia.
    + destruct (IH (k + 1)%Z) as [[Hm Hno] | (i & c & Hi & Hl & Hc & Hlt)].
      * left. split; [done|]. intros c Hc. apply elem_of_cons in Hc as [->|Hc]; [done | by apply Hno].
      * right. exists (S i), c. repeat split; [lia | done | done |].
        intros j c' Hj Hl'. destruct j as [|j]; simpl in Hl'.
        -- by injection Hl' as <-.
        -- apply (Hlt j c'); [lia | done].
Qed.



Lemma findCodecIndex_fold mime mime' codecs k :
  ToLower mime = ToLower mime' -> findCodecIndex mime codecs k = findCodecIndex mime' codecs k.
Proof.
  intros H. revert k. induction codecs as [|c rest IH]; intros k; simpl; [done|].
  by rewrite (EqualFold_congr_l mime mime' _ H), IH.
Qed.




(** ** Potential codecs *)


(** ** The SDP cid *)

Lemma hasCodecCid_spec cid codecs :
  hasCodecCid cid codecs = true <-> exists c, c ∈ codecs /\ Cid c = cid.
Proof.
  induction codecs as [|c0 rest IH]; simpl.
  - split; [done | intros (c & Hc & _); by apply elem_of_nil in Hc].
  - destruct (String.eqb_spec (Cid c0) cid) as [E|E].
    + split; [|done]. intros _. exists c0. split; [by left | done].
    + rewrite IH. split.
      * intros (c & Hc & He). exists c. split; [by right | done].
      * intros (c & Hc & He). apply elem_of_cons in Hc as [->|Hc]; [done|]. by exists c.
Qed.

(** X15: [HasSdpCid] answers true exactly for the SDP cid of the track
    and for the cids of its declared codecs, and no operation of the track
    changes the answer. *)
Theorem HasSdpCid_matches_track_or_codec RidToSpatialLayer VideoQualityToSpatialLayer cid t :
  (HasSdpCid cid t = true <->
   SdpCid (params t) = cid \/
   exists c, c ∈ Codecs (trackInfo (mtr t)) /\ Cid c = cid) /\
  (forall ops,
     HasSdpCid cid (run RidToSpatialLayer VideoQualityToSpatialLayer ops t).1 = HasSdpCid cid t).
Proof.
  split.
  - unfold HasSdpCid, Registry.TrackInfoClone.
    destruct (String.eqb_spec (SdpCid (params t)) cid) as [E|E].
    + split; [by left | done].
    + rewrite hasCodecCid_spec. split; [by right | by intros [?|?]].
  - intros ops. unfold HasSdpCid, Registry.TrackInfoClone.
    by destruct (run_frame RidToSpatialLayer VideoQualityToSpatialLayer ops t) as [-> ->].
Qed.

(** ** More on [AddReceiver] *)

Section AddReceiverMore.

Variable RidToSpatialLayer : string -> TrackInfo -> Z.

(** The four ways through [AddReceiver]. *)
Lemma AddReceiver_paths receiver track mid t (P : bool * MediaTrack * list Event -> Prop) :
  (hasBufferPair (params t) track = false ->
   P (false, t, [Log_Errorw "could not retrieve buffer pair"])) ->
  (forall buff rd w,
     BufferFactory (params t) (SSRC track) = (Some buff, Some rd) ->
     Registry.Receiver (ToLower (tr_MimeType track)) (mtr t) = Some w ->
     P (false,
        (attachUpTrack track (ToLower (tr_MimeType track))
           (RidToSpatialLayer (RID track) (trackInfo (mtr t))) buff t).1,
        [Rtcp_OnPacket rd buff; Log_Debugw "AddReceiver"] ++
        (attachUpTrack track (ToLower (tr_MimeType track))
           (RidToSpatialLayer (RID track) (trackInfo (mtr t))) buff t).2)) ->
  (forall buff rd,
     BufferFactory (params t) (SSRC track) = (Some buff, Some rd) ->
     Registry.Receiver (ToLower (tr_MimeType track)) (mtr t) = None ->
     (resolvePriority (ToLower (tr_MimeType track)) (Codecs (trackInfo (mtr t))) < 0)%Z ->
     P (false, t,
        [Rtcp_OnPacket rd buff; Log_Debugw "AddReceiver";
         Log_Warnw "could not find codec for webrtc receiver" (ToLower (tr_MimeType track))
           (trackInfo (mtr t))])) ->
  (forall buff rd,
     BufferFactory (params t) (SSRC track) = (Some buff, Some rd) ->
     Registry.Receiver (ToLower (tr_MimeType track)) (mtr t) = None ->
     (0 <= resolvePriority (ToLower (tr_MimeType track)) (Codecs (trackInfo (mtr t))))%Z ->
     P (true,
        (attachUpTrack track (ToLower (tr_MimeType track))
           (RidToSpatialLayer (RID track) (trackInfo (mtr t))) buff
           (setupNewCodec receiver track mid (ToLower (tr_MimeType track))
              (resolvePriority (ToLower (tr_MimeType track)) (Codecs (trackInfo (mtr t)))) buff t).1).1,
        [Rtcp_OnPacket rd buff; Log_Debugw "AddReceiver"] ++
        (setupNewCodec receiver track mid (ToLower (tr_MimeType track))
           (resolvePriority (ToLower (tr_MimeType track)) (Codecs (trackInfo (mtr t)))) buff t).2 ++
        (attachUpTrack track (ToLower (tr_MimeType track))
           (RidToSpatialLayer (RID track) (trackInfo (mtr t))) buff
           (setupNewCodec receiver track mid (ToLower (tr_MimeType track))
              (resolvePriority (ToLower (tr_MimeType track)) (Codecs (trackInfo (mtr t)))) buff t).1).2)) ->
  P (AddReceiver RidToSpatialLayer receiver track mid t).
Proof.
  intros Hnone Hexist Hfail Hnew.
  destruct (BufferFactory (params t) (SSRC track)) as [[buff|] [rd|]] eqn:Hb;
    try (rewrite AddReceiver_no_pair by (rewrite Hb; simpl; tauto);
         apply Hnone; unfold hasBufferPair; by rewrite Hb).
  destruct (Registry.Receiver (ToLower (tr_MimeType track)) (mtr t)) as [w|] eqn:Hw.
  - rewrite (AddReceiver_existing _ _ _ _ _ _ _ _ Hb Hw). by apply (Hexist buff rd w).
  - destruct (Z.lt_ge_cases (resolvePriority (ToLower (tr_MimeType track)) (Codecs (trackInfo (mtr t)))) 0) as [Hp|Hp].
    + rewrite (AddReceiver_unresolved _ _ _ _ _ _ _ Hb Hw Hp). by apply (Hfail buff rd).
    + rewrite (AddReceiver_new _ _ _ _ _ _ _ Hb Hw Hp). by apply (Hnew buff rd).
Qed.

Lemma attachUpTrack_more track mime layer buff t :
  let out := attachUpTrack track mime layer buff t in
  lossProxy out.1 = lossProxy t /\
  potentialCodecs (mtr out.1) = potentialCodecs (mtr t) /\
  headerExtensions (mtr out.1) = headerExtensions (mtr t) /\
  out.2 = [Buffer_Bind buff (tr_MimeType track); Buffer_OnFpsChanged buff;
           Buffer_OnFinalRtpStats buff mime layer].
Proof.
  unfold attachUpTrack, Registry.IsSimulcast; cbv zeta; cbn [fst snd mtr set_mtr lossProxy set_numUpTracks].
  split; [done|]. split; [|split; [|done]].
  - destruct ((1 <? Inc (numUpTracks t))%Z || negb (String.eqb (RID track) "")); simpl.
    + match goal with |- context [Registry.SetLayerSsrc ?a ?b ?c ?r] =>
        by destruct (SetLayerSsrc_fields a b c r) as (_ & _ & -> & _) end.
    + destruct (simulcast (mtr t)); [|done].
      match goal with |- context [Registry.SetLayerSsrc ?a ?b ?c ?r] =>
        by destruct (SetLayerSsrc_fields a b c r) as (_ & _ & -> & _) end.
  - destruct ((1 <? Inc (numUpTracks t))%Z || negb (String.eqb (RID track) "")); simpl.
    + match goal with |- context [Registry.SetLayerSsrc ?a ?b ?c ?r] =>
        by destruct (SetLayerSsrc_fields a b c r) as (_ & _ & _ & -> & _) end.
    + destruct (simulcast (mtr t)); [|done].
      match goal with |- context [Registry.SetLayerSsrc ?a ?b ?c ?r] =>
        by destruct (SetLayerSsrc_fields a b c r) as (_ & _ & _ & -> & _) end.
Qed.

Lemma bindSimTracks_potential mime mid sims : forall r,
  potentialCodecs (bindSimTracks mime mid sims r) = potentialCodecs r /\
  headerExtensions (bindSimTracks mime mid sims r) = headerExtensions r.
Proof.
  induction sims as [|[ssrc info] rest IH]; intros r; simpl; [done|].
  destruct (String.eqb (Mid info) mid); [|apply IH].
  destruct (IH (Registry.SetLayerSsrc mime (Rid info) ssrc r)) as [-> ->].
  by destruct (SetLayerSsrc_fields mime (Rid info) ssrc r) as (_ & _ & -> & -> & _).
Qed.

Lemma setupNewCodec_more receiver track mid mime priority buff t :
  let out := setupNewCodec receiver track mid mime priority buff t in
  let potential := collectPotentialCodecs (Codecs (trackInfo (mtr t))) (rr_Codecs receiver) in
  let first := bool_decide (receivers (mtr t) = []) && (0 <? length potential)%nat in
  buffer out.1 = Some buff /\
  lossProxy out.1 = lossProxy t /\
  dynacastManager out.1 = Dynacast.AddCodec (tr_MimeType track) <$> dynacastManager t /\
  potentialCodecs (mtr out.1) = (if first then potential else potentialCodecs (mtr t)) /\
  headerExtensions (mtr out.1)
  = (if first then rr_HeaderExtensions receiver else headerExtensions (mtr t)) /\
  out.2 = (if first then [Log_Debugw "primary codec published, set potential codecs"] else []) ++
          match dynacastManager t with
          | Some _ => [Dynacast_AddCodec (tr_MimeType track)]
          | None => []
          end.
Proof.
  unfold setupNewCodec, Registry.PrimaryReceiver, Registry.TrackInfoClone; cbv zeta.
  destruct (receivers (mtr t)) as [|w0 l] eqn:Hr; simpl.
  - destruct (0 <? length (collectPotentialCodecs (Codecs (trackInfo (mtr t))) (rr_Codecs receiver)))%nat;
      destruct (dynacastManager t) as [d|]; simpl;
      match goal with |- context [bindSimTracks ?a ?b ?c ?r] =>
        destruct (bindSimTracks_potential a b c r) as [-> ->] end;
      simpl; by destruct (priority =? 0)%Z.
  - destruct (dynacastManager t) as [d|]; simpl;
      match goal with |- context [bindSimTracks ?a ?b ?c ?r] =>
        destruct (bindSimTracks_potential a b c r) as [-> ->] end;
      simpl; by destruct (priority =? 0)%Z.
Qed.


(** X6: [t.buffer] is replaced exactly by the calls that create a codec,
    with the buffer of the encoding that created it; every other call,
    also one that attaches a further layer, leaves it as it is. *)
Theorem buffer_follows_new_codec receiver track mid t :
  let out := AddReceiver RidToSpatialLayer receiver track mid t in
  buffer out.1.2
  = (if out.1.1 then (BufferFactory (params t) (SSRC track)).1 else buffer t).
Proof.
  cbv zeta. apply AddReceiver_paths.
  - done.
  - intros buff rd w Hb Hw. cbn [fst snd].
    match goal with |- context [attachUpTrack ?a ?b ?c ?d ?e] =>
      by destruct (attachUpTrack_fields a b c d e) as (_ & _ & -> & _) end.
  - done.
  - intros buff rd Hb Hw Hp. cbn [fst snd]. rewrite Hb.
    match goal with |- context [attachUpTrack ?a ?b ?c ?d ?e] =>
      destruct (attachUpTrack_fields a b c d e) as (_ & _ & -> & _) end.
    match goal with |- context [setupNewCodec ?a ?b ?c ?d ?e ?f ?g] =>
      by destruct (setupNewCodec_more a b c d e f g) as (-> & _) end.
Qed.



End AddReceiverMore.

(** ** Runs: counter, controller and traces *)

Lemma Inc_range n : (0 <= Inc n < 2 ^ 32)%Z.
Proof. unfold Inc. apply Z.mod_pos_bound. lia. Qed.

Lemma Inc_small n : (0 <= n <= 1)%Z -> Inc n = (n + 1)%Z.
Proof. intros H. unfold Inc. apply Z.mod_small. lia. Qed.

Lemma setMaxExpectedLayers_events VideoQualityToSpatialLayer qs : forall r,
  Forall (fun e => isSetMaxExpected e = true)
    (setMaxExpectedLayers VideoQualityToSpatialLayer qs r).2.
Proof.
  induction qs as [|q rest IH]; intros r; simpl; [constructor|].
  destruct (Registry.Receiver (CodecMime q) r); [|apply IH].
  match goal with |- context [setMaxExpectedLayers _ rest ?r1] =>
    specialize (IH r1); destruct (setMaxExpectedLayers VideoQualityToSpatialLayer rest r1) as [r2 ev] end.
  simpl in *. by constructor.
Qed.

Lemma filter_disjoint (p q : Event -> bool) l :
  Forall (fun e => q e = true) l -> (forall e, q e = true -> p e = false) ->
  List.filter p l = [].
Proof.
  intros Hl Hpq. induction Hl as [|e l He Hl IH]; simpl; [done|].
  by rewrite (Hpq e He).
Qed.

Ltac presence :=
  split; [split; intros [? ?]; first [done | by eexists] | done].

Section RunProperties.

Variable RidToSpatialLayer : string -> TrackInfo -> Z.
Variable VideoQualityToSpatialLayer : VideoQuality -> TrackInfo -> Z.

Lemma AddReceiver_counter_flag receiver track mid t :
  let out := AddReceiver RidToSpatialLayer receiver track mid t in
  (numUpTracks out.1.2 = numUpTracks t /\ simulcast (mtr out.1.2) = simulcast (mtr t)) \/
  (numUpTracks out.1.2 = Inc (numUpTracks t) /\
   simulcast (mtr out.1.2) =
     simulcast (mtr t) || (1 <? Inc (numUpTracks t))%Z || negb (String.eqb (RID track) "")).
Proof.
  cbv zeta. apply AddReceiver_paths.
  - by left.
  - intros buff rd w Hb Hw. right. cbn [fst snd].
    match goal with |- context [attachUpTrack ?a ?b ?c ?d ?e] =>
      by destruct (attachUpTrack_fields a b c d e) as (_ & _ & _ & -> & _ & _ & -> & _) end.
  - by left.
  - intros buff rd Hb Hw Hp. right. cbn [fst snd].
    match goal with |- context [attachUpTrack ?a ?b ?c ?d ?e] =>
      destruct (attachUpTrack_fields a b c d e) as (_ & _ & _ & -> & _ & _ & -> & _) end.
    match goal with |- context [setupNewCodec ?a ?b ?c ?d ?e ?f ?g] =>
      by destruct (setupNewCodec_fields a b c d e f g) as (_ & -> & _ & -> & _) end.
Qed.

Lemma handler_rest f u t :
  lossProxy (handler VideoQualityToSpatialLayer f u t).1 = lossProxy t /\
  buffer (handler VideoQualityToSpatialLayer f u t).1 = buffer t /\
  potentialCodecs (mtr (handler VideoQualityToSpatialLayer f u t).1) = potentialCodecs (mtr t) /\
  exists hc,
    (handler VideoQualityToSpatialLayer f u t).2 =
      hc ++ (setMaxExpectedLayers VideoQualityToSpatialLayer (maxSubscribedQualities u) (mtr t)).2 /\
    hc = match f with
         | Some fid => if muted (mtr t) then [] else [Handler_Call fid (ID t) u]
         | None => []
         end.
Proof.
  unfold handler, Registry.IsMuted.
  assert (Hpc : potentialCodecs
            (setMaxExpectedLayers VideoQualityToSpatialLayer (maxSubscribedQualities u) (mtr t)).1
            = potentialCodecs (mtr t)).
  { generalize (mtr t). induction (maxSubscribedQualities u) as [|q rest IH]; intros r; simpl; [done|].
    destruct (Registry.Receiver (CodecMime q) r); [|apply IH].
    match goal with |- context [setMaxExpectedLayers _ rest ?r1] =>
      specialize (IH r1); destruct (setMaxExpectedLayers VideoQualityToSpatialLayer rest r1) as [r2 ev] end.
    simpl in *. done. }
  destruct (setMaxExpectedLayers VideoQualityToSpatialLayer (maxSubscribedQualities u) (mtr t)) as [r ev].
  cbn [fst snd] in *. repeat split; try done.
  eexists. split; [reflexivity|]. destruct f; [|done]. by destruct (muted (mtr t)).
Qed.

Lemma step_counter o t :
  match o with
  | Op_AddReceiver _ _ _ => True
  | _ => numUpTracks (step RidToSpatialLayer VideoQualityToSpatialLayer o t).1 = numUpTracks t
  end.
Proof.
  destruct o as [receiver track mid|f| |b|b|mime|]; unfold step; try done.
  - unfold OnSubscribedMaxQualityChange. by destruct (dynacastManager t).
  - unfold Restart. simpl. by destruct (dynacastManager t).
  - unfold Close. by destruct (dynacastManager t).
  - unfold SetMuted. by destruct b, (dynacastManager t).
  - unfold onCloseHandler, Registry.TryClose. simpl.
    destruct (List.filter _ (receivers (mtr t))); simpl; by destruct (dynacastManager t).
  - by destruct (emitQualityChange_fields VideoQualityToSpatialLayer t) as (_ & -> & _).
Qed.


Lemma step_controller o t :
  let t' := (step RidToSpatialLayer VideoQualityToSpatialLayer o t).1 in
  (is_Some (dynacastManager t') <-> is_Some (dynacastManager t)) /\
  lossProxy t' = lossProxy t.
Proof.
  cbv zeta. destruct o as [receiver track mid|f| |b|b|mime|]; unfold step.
  - assert (H : (is_Some (dynacastManager (AddReceiver RidToSpatialLayer receiver track mid t).1.2)
                 <-> is_Some (dynacastManager t)) /\
                lossProxy (AddReceiver RidToSpatialLayer receiver track mid t).1.2 = lossProxy t).
    { apply AddReceiver_paths.
      - done.
      - intros buff rd w Hb Hw. cbn [fst snd].
        match goal with |- context [attachUpTrack ?a ?b ?c ?d ?e] =>
          destruct (attachUpTrack_fields a b c d e) as (_ & -> & _);
          by destruct (attachUpTrack_more a b c d e) as (-> & _) end.
      - done.
      - intros buff rd Hb Hw Hp. cbn [fst snd].
        match goal with |- context [attachUpTrack ?a ?b ?c ?d ?e] =>
          destruct (attachUpTrack_fields a b c d e) as (_ & -> & _);
          destruct (attachUpTrack_more a b c d e) as (-> & _) end.
        match goal with |- context [setupNewCodec ?a ?b ?c ?d ?e ?f ?g] =>
          destruct (setupNewCodec_more a b c d e f g) as (_ & -> & -> & _) end.
        destruct (dynacastManager t); simpl; presence. }
    by destruct (AddReceiver RidToSpatialLayer receiver track mid t) as [[b t'] ev].
  - unfold OnSubscribedMaxQualityChange. destruct (dynacastManager t) eqn:E; simpl;
      rewrite ?E; presence.
  - unfold Restart. simpl. destruct (dynacastManager t) eqn:E; simpl; rewrite ?E; presence.
  - unfold Close. destruct (dynacastManager t) eqn:E; simpl; rewrite ?E; presence.
  - unfold SetMuted. destruct b, (dynacastManager t) eqn:E; simpl; rewrite ?E; presence.
  - unfold onCloseHandler, Registry.TryClose. simpl.
    destruct (List.filter _ (receivers (mtr t))); simpl; destruct (dynacastManager t) eqn:E; simpl;
      rewrite ?E; presence.
  - unfold emitQualityChange.
    destruct (dynacastManager t) as [d|] eqn:E; [|simpl; rewrite ?E; presence].
    destruct (dm_queue d) as [|u rest]; [simpl; rewrite ?E; presence|].
    destruct (dm_handler d) as [f|]; simpl; [|presence].
    match goal with |- context [handler _ f u ?t1] =>
      destruct (handler_fields VideoQualityToSpatialLayer f u t1) as (_ & _ & -> & _);
      destruct (handler_rest f u t1) as (-> & _) end.
    simpl. presence.
Qed.

Lemma run_app l1 : forall l2 t,
  run RidToSpatialLayer VideoQualityToSpatialLayer (l1 ++ l2) t =
  ((run RidToSpatialLayer VideoQualityToSpatialLayer l2
      (run RidToSpatialLayer VideoQualityToSpatialLayer l1 t).1).1,
   (run RidToSpatialLayer VideoQualityToSpatialLayer l1 t).2 ++
   (run RidToSpatialLayer VideoQualityToSpatialLayer l2
      (run RidToSpatialLayer VideoQualityToSpatialLayer l1 t).1).2).
Proof.
  induction l1 as [|a l1 IH]; intros l2 t.
  - simpl. by destruct (run RidToSpatialLayer VideoQualityToSpatialLayer l2 t).
  - simpl. destruct (step RidToSpatialLayer VideoQualityToSpatialLayer a t) as [t1 ev1].
    rewrite (IH l2 t1).
    destruct (run RidToSpatialLayer VideoQualityToSpatialLayer l1 t1) as [t2 ev2]. simpl.
    destruct (run RidToSpatialLayer VideoQualityToSpatialLayer l2 t2) as [t3 ev3]. simpl.
    by rewrite app_assoc.
Qed.

(** X10: a track has a Dynacast controller exactly when it was created as
    a video track and a loss proxy exactly when it was created as an audio
    track, and no operation adds or drops either of them afterwards. *)
Theorem controller_is_for_video_only ops p ti :
  let t := (run RidToSpatialLayer VideoQualityToSpatialLayer ops (NewMediaTrack p ti)).1 in
  (is_Some (dynacastManager t) <-> Type_ ti = TrackType_VIDEO) /\
  (lossProxy t = true <-> Type_ ti = TrackType_AUDIO).
Proof.
  cbv zeta. induction ops as [|o rest IH] using rev_ind.
  - simpl. destruct (Type_ ti); split; split; try done; by intros [? ?].
  - rewrite run_app. cbn [fst]. rewrite run_cons. cbn [run fst].
    destruct (step_controller o (run RidToSpatialLayer VideoQualityToSpatialLayer rest (NewMediaTrack p ti)).1)
      as [Hd Hl].
    rewrite Hd, Hl. exact IH.
Qed.

End RunProperties.

Section TraceProperties.

Variable RidToSpatialLayer : string -> TrackInfo -> Z.
Variable VideoQualityToSpatialLayer : VideoQuality -> TrackInfo -> Z.

Lemma step_AddReceiver receiver track mid t :
  step RidToSpatialLayer VideoQualityToSpatialLayer (Op_AddReceiver receiver track mid) t
  = ((AddReceiver RidToSpatialLayer receiver track mid t).1.2,
     (AddReceiver RidToSpatialLayer receiver track mid t).2).
Proof.
  unfold step. by destruct (AddReceiver RidToSpatialLayer receiver track mid t) as [[b t'] ev].
Qed.

Lemma AddReceiver_trace receiver track mid t :
  let ev := (AddReceiver RidToSpatialLayer receiver track mid t).2 in
  List.filter isForceUpdate ev = [] /\
  List.filter isHandlerCall ev = [] /\
  (dynacastManager t = None -> List.filter isDynacastCall ev = []).
Proof.
  cbv zeta. apply AddReceiver_paths.
  - done.
  - intros buff rd w Hb Hw. cbn [fst snd].
    match goal with |- context [attachUpTrack ?a ?b ?c ?d ?e] =>
      by destruct (attachUpTrack_more a b c d e) as (_ & _ & _ & ->) end.
  - done.
  - intros buff rd Hb Hw Hp. cbn [fst snd].
    match goal with |- context [attachUpTrack ?a ?b ?c ?d ?e] =>
      destruct (attachUpTrack_more a b c d e) as (_ & _ & _ & ->) end.
    match goal with |- context [setupNewCodec ?a ?b ?c ?d ?e ?f ?g] =>
      destruct (setupNewCodec_more a b c d e f g) as (_ & _ & _ & _ & _ & ->) end.
    destruct (bool_decide (receivers (mtr t) = []) && _), (dynacastManager t); done.
Qed.

Lemma handler_trace_other f u t :
  List.filter isForceUpdate (handler VideoQualityToSpatialLayer f u t).2 = [] /\
  List.filter isDynacastCall (handler VideoQualityToSpatialLayer f u t).2 = [].
Proof.
  destruct (handler_rest VideoQualityToSpatialLayer f u t) as (_ & _ & _ & hc & -> & ->).
  rewrite !List.filter_app.
  pose proof (setMaxExpectedLayers_events VideoQualityToSpatialLayer (maxSubscribedQualities u) (mtr t))
    as Hev.
  rewrite (filter_disjoint isForceUpdate isSetMaxExpected _ Hev) by (by intros []).
  rewrite (filter_disjoint isDynacastCall isSetMaxExpected _ Hev) by (by intros []).
  destruct f; [|done]. by destruct (muted (mtr t)).
Qed.

Lemma step_trace o t :
  let ev := (step RidToSpatialLayer VideoQualityToSpatialLayer o t).2 in
  List.filter isForceUpdate ev
  = (if isUnmute o && bool_decide (is_Some (dynacastManager t)) then [Dynacast_ForceUpdate] else []) /\
  (dynacastManager t = None ->
   List.filter isDynacastCall ev = [] /\ List.filter isHandlerCall ev = []).
Proof.
  cbv zeta. destruct o as [receiver track mid|f| |b|b|mime|].
  - rewrite step_AddReceiver. cbn [snd isUnmute andb].
    destruct (AddReceiver_trace receiver track mid t) as (-> & -> & H). split; [done|].
    intros Hd. by rewrite (H Hd).
  - done.
  - unfold step, Restart. simpl. by destruct (dynacastManager t).
  - unfold step; cbv beta iota; unfold Close. by destruct (dynacastManager t).
  - unfold step; cbv beta iota; unfold SetMuted. destruct b; simpl.
    + done.
    + destruct (dynacastManager t) eqn:E; simpl; done.
  - unfold step; cbv beta iota; unfold onCloseHandler, Registry.TryClose. simpl.
    destruct (List.filter _ (receivers (mtr t))); simpl; by destruct (dynacastManager t).
  - unfold step; cbv beta iota; unfold emitQualityChange.
    destruct (dynacastManager t) as [d|] eqn:E; [|done].
    destruct (dm_queue d) as [|u rest]; [done|].
    destruct (dm_handler d) as [f|]; [|done].
    match goal with |- context [handler _ f u ?t1] =>
      destruct (handler_trace_other f u t1) as (-> & _) end.
    split; [done|]. by intros [=].
Qed.

(** X16: on a track with a Dynacast controller [ForceUpdate] is called
    once for every [SetMuted(false)] and by nothing else: not by
    [SetMuted(true)], [AddReceiver], [Restart], [Close], a receiver that
    closes or an emission of the controller. *)
Theorem force_update_once_per_unmute ops t :
  is_Some (dynacastManager t) ->
  length (List.filter isForceUpdate (run RidToSpatialLayer VideoQualityToSpatialLayer ops t).2)
  = length (List.filter isUnmute ops).
Proof.
  revert t. induction ops as [|o rest IH]; intros t Hd; [done|].
  rewrite run_cons. cbn [snd]. rewrite List.filter_app, length_app.
  destruct (step_trace o t) as [-> _].
  destruct (step_controller RidToSpatialLayer VideoQualityToSpatialLayer o t) as [Hp _].
  rewrite IH by (by apply Hp). rewrite bool_decide_true by done.
  simpl. by destruct (isUnmute o).
Qed.

(** X19: a track without a Dynacast controller (audio or data) never
    calls the controller and never invokes an external quality-change
    handler, whatever is asked of it: every use of the controller is
    behind a nil check. *)
Theorem no_controller_no_quality_calls ops t :
  dynacastManager t = None ->
  List.filter isDynacastCall (run RidToSpatialLayer VideoQualityToSpatialLayer ops t).2 = [] /\
  List.filter isHandlerCall (run RidToSpatialLayer VideoQualityToSpatialLayer ops t).2 = [].
Proof.
  revert t. induction ops as [|o rest IH]; intros t Hd; [done|].
  rewrite run_cons. cbn [snd]. rewrite !List.filter_app.
  destruct (step_trace o t) as [_ H]. destruct (H Hd) as [-> ->].
  destruct (step_controller RidToSpatialLayer VideoQualityToSpatialLayer o t) as [Hp _].
  assert (Hd' : dynacastManager (step RidToSpatialLayer VideoQualityToSpatialLayer o t).1 = None).
  { destruct (dynacastManager (step RidToSpatialLayer VideoQualityToSpatialLayer o t).1) eqn:E; [|done].
    rewrite Hd in Hp. destruct (proj1 Hp) as [? ?]; [by eexists | done]. }
  by destruct (IH _ Hd') as [-> ->].
Qed.


End TraceProperties.

(** ** The handler loop and the RTCP loop *)

Section LoopProperties.

Variable VideoQualityToSpatialLayer : VideoQuality -> TrackInfo -> Z.

Lemma setMaxExpectedLayers_upTracks qs : forall r,
  map wr_upTracks (receivers (setMaxExpectedLayers VideoQualityToSpatialLayer qs r).1)
  = map wr_upTracks (receivers r).
Proof.
  induction qs as [|q rest IH]; intros r; simpl; [done|].
  destruct (Registry.Receiver (CodecMime q) r); [|apply IH].
  match goal with |- context [setMaxExpectedLayers _ rest ?r1] =>
    specialize (IH r1); destruct (setMaxExpectedLayers VideoQualityToSpatialLayer rest r1) as [r2 ev] end.
  simpl in *. rewrite IH. clear.
  induction (receivers r) as [|w l IHl]; simpl; [done|].
  destruct (EqualFold (wr_mime w) (CodecMime q)); simpl; by rewrite ?IHl.
Qed.

(** X12: the quality handler only moves ceilings.  It leaves the
    parameters, the up-track counter, the controller, the track metadata,
    the layer map and the simulcast and mute flags as they are, keeps
    every receiver in its slot with its attached encodings, and does not
    touch a receiver whose codec is not in the update. *)
Theorem handler_only_moves_ceilings f u t :
  let t' := (handler VideoQualityToSpatialLayer f u t).1 in
  params t' = params t /\
  numUpTracks t' = numUpTracks t /\
  dynacastManager t' = dynacastManager t /\
  trackInfo (mtr t') = trackInfo (mtr t) /\
  layerSsrcs (mtr t') = layerSsrcs (mtr t) /\
  simulcast (mtr t') = simulcast (mtr t) /\
  muted (mtr t') = muted (mtr t) /\
  map slot (receivers (mtr t')) = map slot (receivers (mtr t)) /\
  map wr_upTracks (receivers (mtr t')) = map wr_upTracks (receivers (mtr t)) /\
  (forall k,
     (forall q, q ∈ maxSubscribedQualities u -> EqualFold (CodecMime q) k = false) ->
     Registry.Receiver k (mtr t') = Registry.Receiver k (mtr t)).
Proof.
  cbv zeta.
  destruct (handler_fields VideoQualityToSpatialLayer f u t) as (-> & -> & -> & -> & -> & -> & -> & ->).
  assert (Hmtr : mtr (handler VideoQualityToSpatialLayer f u t).1
            = (setMaxExpectedLayers VideoQualityToSpatialLayer (maxSubscribedQualities u) (mtr t)).1).
  { unfold handler.
    by destruct (setMaxExpectedLayers VideoQualityToSpatialLayer (maxSubscribedQualities u) (mtr t)). }
  repeat split; try done.
  - rewrite Hmtr. apply setMaxExpectedLayers_upTracks.
  - intros k Hk. rewrite Hmtr, setMaxExpectedLayers_lookup.
    assert (Hf : List.filter (fun q => EqualFold (CodecMime q) k) (maxSubscribedQualities u) = []).
    { revert Hk. generalize (maxSubscribedQualities u) as l.
      induction l as [|q l IH]; intros Hk; simpl; [done|].
      rewrite (Hk q) by (by left). apply IH. intros q' Hq'. apply Hk. by right. }
    by rewrite Hf.
Qed.

Lemma setMaxExpectedLayers_registered qs : forall r k,
  is_Some (Registry.Receiver k (setMaxExpectedLayers VideoQualityToSpatialLayer qs r).1)
  <-> is_Some (Registry.Receiver k r).
Proof.
  intros r k. rewrite setMaxExpectedLayers_lookup.
  destruct (last _); [|done]. destruct (Registry.Receiver k r); simpl; [|done].
  split; intros _; by eexists.
Qed.

Lemma setMaxExpectedLayers_trace qs : forall r,
  (setMaxExpectedLayers VideoQualityToSpatialLayer qs r).2 =
  map (fun q => Receiver_SetMaxExpectedSpatialLayer (CodecMime q)
                  (VideoQualityToSpatialLayer (Quality q) (trackInfo r)))
    (List.filter (fun q => bool_decide (is_Some (Registry.Receiver (CodecMime q) r))) qs).
Proof.
  induction qs as [|q rest IH]; intros r; [done|].
  cbn [setMaxExpectedLayers List.filter].
  destruct (Registry.Receiver (CodecMime q) r) as [w|] eqn:Hq.
  - rewrite bool_decide_true by done.
    match goal with |- context [setMaxExpectedLayers _ rest ?r1] =>
      specialize (IH r1); set (r' := r1) in * end.
    assert (Hreg : forall q', bool_decide (is_Some (Registry.Receiver (CodecMime q') r'))
                              = bool_decide (is_Some (Registry.Receiver (CodecMime q') r))).
    { intros q'. apply bool_decide_ext.
      pose proof (setMaxExpectedLayers_registered [q] r (CodecMime q')) as H.
      cbn [setMaxExpectedLayers] in H. rewrite Hq in H. exact H. }
    destruct (setMaxExpectedLayers VideoQualityToSpatialLayer rest r') as [r2 ev].
    cbn [fst snd] in *. rewrite IH. cbn [map]. f_equal.
    by rewrite (List.filter_ext _ _ Hreg).
  - rewrite bool_decide_false by (by intros [? ?]). apply IH.
Qed.

(** X13: the handler calls [SetMaxExpectedSpatialLayer] once for every
    entry of the update whose codec has a registered receiver, in the
    order of the update, and passes over the entries whose codec has
    none; with no receiver registered it makes no such call. *)
Theorem one_ceiling_call_per_registered_entry f u t :
  List.filter isSetMaxExpected (handler VideoQualityToSpatialLayer f u t).2 =
  map (fun q => Receiver_SetMaxExpectedSpatialLayer (CodecMime q)
                  (VideoQualityToSpatialLayer (Quality q) (trackInfo (mtr t))))
    (List.filter (fun q => bool_decide (is_Some (Registry.Receiver (CodecMime q) (mtr t))))
       (maxSubscribedQualities u)) /\
  (receivers (mtr t) = [] ->
   List.filter isSetMaxExpected (handler VideoQualityToSpatialLayer f u t).2 = []).
Proof.
  destruct (handler_rest VideoQualityToSpatialLayer f u t) as (_ & _ & _ & hc & -> & ->).
  rewrite List.filter_app, setMaxExpectedLayers_trace.
  assert (Hhc : List.filter isSetMaxExpected
            match f with
            | Some fid => if muted (mtr t) then [] else [Handler_Call fid (ID t) u]
            | None => []
            end = []).
  { destruct f; [|done]. by destruct (muted (mtr t)). }
  rewrite Hhc. cbn [app].
  assert (Hall : forall l, List.filter isSetMaxExpected
            (map (fun q => Receiver_SetMaxExpectedSpatialLayer (CodecMime q)
                    (VideoQualityToSpatialLayer (Quality q) (trackInfo (mtr t)))) l)
            = map (fun q => Receiver_SetMaxExpectedSpatialLayer (CodecMime q)
                    (VideoQualityToSpatialLayer (Quality q) (trackInfo (mtr t)))) l).
  { induction l as [|q l IH]; simpl; [done|]. by rewrite IH. }
  rewrite Hall. split; [done|].
  intros Hr. unfold Registry.Receiver. rewrite Hr.
  induction (maxSubscribedQualities u) as [|q l IH]; [done|]. exact IH.
Qed.

End LoopProperties.

(** X14: the RTCP loop handles a packet list piece by piece: the packets
    of two payloads taken in turn have the effect of their concatenation;
    and a payload that holds no sender report makes no call on the buffer
    and leaves it as it is. *)
Theorem rtcp_loop_composes :
  (forall pkts1 pkts2 b,
     dispatchPackets (pkts1 ++ pkts2) b =
     ((dispatchPackets pkts2 (dispatchPackets pkts1 b).1).1,
      (dispatchPackets pkts1 b).2 ++ (dispatchPackets pkts2 (dispatchPackets pkts1 b).1).2)) /\
  (forall pkts b, senderReports pkts = [] -> dispatchPackets pkts b = (b, [])).
Proof.
  split.
  - induction pkts1 as [|pkt rest IH]; intros pkts2 b.
    + simpl. by destruct (dispatchPackets pkts2 b).
    + destruct pkt as [|rtpTime ntpTime|]; simpl; try apply IH.
      rewrite IH.
      destruct (dispatchPackets rest (SetSenderReportData rtpTime ntpTime b)) as [b1 ev1]. simpl.
      by destruct (dispatchPackets pkts2 b1).
  - induction pkts as [|pkt rest IH]; intros b Hs; [done|].
    destruct pkt as [|rtpTime ntpTime|]; simpl; try (by apply IH). done.
Qed.

(** ** Pending codec and layer map *)

Lemma HasPendingCodec_empty t : HasPendingCodec t = true <-> receivers (mtr t) = [].
Proof.
  unfold HasPendingCodec, Registry.PrimaryReceiver. by destruct (receivers (mtr t)).
Qed.

Lemma SetLayerSsrc_origin mime rid ssrc r k v :
  layerSsrcs (Registry.SetLayerSsrc mime rid ssrc r) !! k = Some v ->
  layerSsrcs r !! k = Some v \/ (k = (mime, rid) /\ v = ssrc).
Proof.
  unfold Registry.SetLayerSsrc.
  destruct (layerSsrcs r !! (mime, rid)) eqn:E; simpl; [by left|].
  destruct (decide (k = (mime, rid))) as [->|Hne].
  - rewrite lookup_insert_eq. intros [= <-]. by right.
  - rewrite lookup_insert_ne by done. by left.
Qed.

Lemma bindSimTracks_origin mime mid sims : forall r k v,
  layerSsrcs (bindSimTracks mime mid sims r) !! k = Some v ->
  layerSsrcs r !! k = Some v \/
  (k.1 = mime /\ exists info, (v, info) ∈ sims /\ Mid info = mid /\ Rid info = k.2).
Proof.
  induction sims as [|[ssrc info] rest IH]; intros r k v H; simpl in H; [by left|].
  destruct (String.eqb_spec (Mid info) mid) as [E|E].
  - destruct (IH _ _ _ H) as [H1 | (Hk & i & Hi & Hm & Hr)].
    + destruct (SetLayerSsrc_origin _ _ _ _ _ _ H1) as [H2 | [-> ->]]; [by left|].
      right. split; [done|]. exists info. split; [by left | done].
    + right. split; [done|]. exists i. split; [by right | done].
  - destruct (IH _ _ _ H) as [H1 | (Hk & i & Hi & Hm & Hr)]; [by left|].
    right. split; [done|]. exists i. split; [by right | done].
Qed.

Lemma attachUpTrack_layer_all track mime layer buff t :
  let t' := (attachUpTrack track mime layer buff t).1 in
  (forall k s, layerSsrcs (mtr t) !! k = Some s -> layerSsrcs (mtr t') !! k = Some s) /\
  (forall k s, layerSsrcs (mtr t') !! k = Some s ->
     layerSsrcs (mtr t) !! k = Some s \/ (k = (mime, RID track) /\ s = SSRC track)).
Proof.
  unfold attachUpTrack, Registry.IsSimulcast; cbv zeta; cbn [fst mtr set_mtr].
  destruct ((1 <? Inc (numUpTracks t))%Z || negb (String.eqb (RID track) "")); simpl.
  - split.
    + intros k s H. by apply SetLayerSsrc_keeps.
    + intros k s H. by apply SetLayerSsrc_origin in H.
  - destruct (simulcast (mtr t)); simpl.
    + split.
      * intros k s H. by apply SetLayerSsrc_keeps.
      * intros k s H. by apply SetLayerSsrc_origin in H.
    + split; [done | by left].
Qed.

Lemma setupNewCodec_layer_origin receiver track mid mime priority buff t k v :
  layerSsrcs (mtr (setupNewCodec receiver track mid mime priority buff t).1) !! k = Some v ->
  layerSsrcs (mtr t) !! k = Some v \/
  (k.1 = mime /\ exists info, (v, info) ∈ SimTracks (params t) /\ Mid info = mid /\ Rid info = k.2).
Proof.
  unfold setupNewCodec; cbv zeta.
  set (pc := match Registry.PrimaryReceiver (mtr t) with None => _ | Some _ => _ end).
  assert (Hpc : layerSsrcs pc.1 = layerSsrcs (mtr t)).
  { unfold pc. destruct (Registry.PrimaryReceiver (mtr t)); [done|].
    destruct (0 <? length _)%nat; done. }
  destruct pc as [r1 ev1]; simpl in Hpc.
  destruct (dynacastManager t) as [d|]; simpl; intros H;
    apply bindSimTracks_origin in H as [H|H]; simpl in H; try (by right); left; congruence.
Qed.

Section PendingAndLayers.

Variable RidToSpatialLayer : string -> TrackInfo -> Z.

Lemma onReceiver_length m f l : length (Registry.onReceiver m f l) = length l.
Proof.
  induction l as [|w l IH]; simpl; [done|].
  destruct (EqualFold (wr_mime w) m); simpl; by rewrite ?IH.
Qed.

Lemma AddReceiver_keeps_receivers receiver track mid t :
  (length (receivers (mtr t))
   <= length (receivers (mtr (AddReceiver RidToSpatialLayer receiver track mid t).1.2)))%nat /\
  ((AddReceiver RidToSpatialLayer receiver track mid t).1.1 = true ->
   (0 < length (receivers (mtr (AddReceiver RidToSpatialLayer receiver track mid t).1.2)))%nat).
Proof.
  apply AddReceiver_paths.
  - done.
  - intros buff rd w Hb Hw. cbn [fst snd].
    match goal with |- context [attachUpTrack ?a ?b ?c ?d ?e] =>
      destruct (attachUpTrack_fields a b c d e) as (_ & _ & _ & _ & _ & -> & _) end.
    rewrite onReceiver_length. done.
  - done.
  - intros buff rd Hb Hw Hp. cbn [fst snd].
    match goal with |- context [attachUpTrack ?a ?b ?c ?d ?e] =>
      destruct (attachUpTrack_fields a b c d e) as (_ & _ & _ & _ & _ & -> & _) end.
    rewrite onReceiver_length.
    match goal with |- context [setupNewCodec ?a ?b ?c ?d ?e ?f ?g] =>
      destruct (setupNewCodec_fields a b c d e f g) as (_ & _ & _ & _ & _ & _ & _ & w & -> & _) end.
    rewrite length_app. simpl. lia.
Qed.

(** X17: a track has a pending codec from its creation until a receiver
    is registered: [HasPendingCodec] is true exactly when no mime has a
    receiver; a call of [AddReceiver] that returns true ends the pending
    state, and no call of [AddReceiver] brings it back. *)
Theorem pending_codec_until_first_receiver :
  (forall p ti, HasPendingCodec (NewMediaTrack p ti) = true) /\
  (forall t, HasPendingCodec t = true <-> forall mime, Registry.Receiver mime (mtr t) = None) /\
  (forall receiver track mid t,
     (AddReceiver RidToSpatialLayer receiver track mid t).1.1 = true ->
     HasPendingCodec (AddReceiver RidToSpatialLayer receiver track mid t).1.2 = false) /\
  (forall receiver track mid t,
     HasPendingCodec t = false ->
     HasPendingCodec (AddReceiver RidToSpatialLayer receiver track mid t).1.2 = false).
Proof.
  assert (Hlen : forall t, HasPendingCodec t = false <-> (0 < length (receivers (mtr t)))%nat).
  { intros t. unfold HasPendingCodec, Registry.PrimaryReceiver.
    destruct (receivers (mtr t)); simpl; split; (done || lia). }
  split; [done|]. split; [|split].
  - intros t. rewrite HasPendingCodec_empty. unfold Registry.Receiver. split.
    + by intros ->.
    + intros H. destruct (receivers (mtr t)) as [|w l]; [done|].
      specialize (H (wr_mime w)). simpl in H. by rewrite EqualFold_refl in H.
  - intros receiver track mid t Ht. apply Hlen.
    by apply (AddReceiver_keeps_receivers receiver track mid t).
  - intros receiver track mid t Ht. apply Hlen. apply Hlen in Ht.
    destruct (AddReceiver_keeps_receivers receiver track mid t) as [H _]. lia.
Qed.


End PendingAndLayers.

(** ** The further properties on the concrete track *)




Lemma handler_only_moves_ceilings_witness :
  Registry.Receiver "video/av1"
    (mtr (handler Demo.VideoQualityToSpatialLayer (Some 7%nat) Demo.demand
            (run Demo.RidToSpatialLayer Demo.VideoQualityToSpatialLayer
               Demo.av1First Demo.videoTrack).1).1)
  = Registry.Receiver "video/av1"
      (mtr (run Demo.RidToSpatialLayer Demo.VideoQualityToSpatialLayer
              Demo.av1First Demo.videoTrack).1).
Proof.
  apply (handler_only_moves_ceilings Demo.VideoQualityToSpatialLayer (Some 7%nat) Demo.demand
           (run Demo.RidToSpatialLayer Demo.VideoQualityToSpatialLayer
              Demo.av1First Demo.videoTrack).1).
  intros q Hq. apply list_elem_of_singleton in Hq. subst q. reflexivity.
Defined.

Lemma one_ceiling_call_per_registered_entry_witness :
  List.filter isSetMaxExpected
    (handler Demo.VideoQualityToSpatialLayer (Some 7%nat) Demo2.twoCodecs Demo.videoTrack).2 = [].
Proof.
  apply (proj2 (one_ceiling_call_per_registered_entry Demo.VideoQualityToSpatialLayer
                  (Some 7%nat) Demo2.twoCodecs Demo.videoTrack)).
  reflexivity.
Defined.

Lemma rtcp_loop_composes_witness :
  dispatchPackets [SourceDescription; OtherPacket] {| lastSenderReport := Some (1%Z, 2%Z) |}
  = ({| lastSenderReport := Some (1%Z, 2%Z) |}, []).
Proof. apply (proj2 rtcp_loop_composes). reflexivity. Defined.

Lemma force_update_once_per_unmute_witness :
  length (List.filter isForceUpdate
            (run Demo.RidToSpatialLayer Demo.VideoQualityToSpatialLayer
               Demo2.videoOps Demo.videoTrack).2) = 2%nat.
Proof.
  apply (force_update_once_per_unmute Demo.RidToSpatialLayer Demo.VideoQualityToSpatialLayer
           Demo2.videoOps Demo.videoTrack).
  by eexists.
Defined.

Lemma no_controller_no_quality_calls_witness :
  List.filter isDynacastCall
    (run Demo.RidToSpatialLayer Demo.VideoQualityToSpatialLayer Demo2.audioOps Demo.audioTrack).2 = [] /\
  List.filter isHandlerCall
    (run Demo.RidToSpatialLayer Demo.VideoQualityToSpatialLayer Demo2.audioOps Demo.audioTrack).2 = [].
Proof.
  apply (no_controller_no_quality_calls Demo.RidToSpatialLayer Demo.VideoQualityToSpatialLayer
           Demo2.audioOps Demo.audioTrack).
  reflexivity.
Defined.

Lemma pending_codec_until_first_receiver_witness :
  HasPendingCodec
    (AddReceiver Demo.RidToSpatialLayer Demo.receiver (Demo.encoding "video/vp8" "" 1001) "0"
       Demo.videoTrack).1.2 = false.
Proof.
  apply (proj1 (proj2 (proj2 (pending_codec_until_first_receiver Demo.RidToSpatialLayer)))).
  reflexivity.
Defined.


(** ** Other codecs and the controller's codec list *)

Lemma find_app_other {A} (p : A -> bool) l x :
  p x = false -> List.find p (l ++ [x]) = List.find p l.
Proof.
  intros Hx. induction l as [|a l IH]; simpl; [by rewrite Hx|]. by destruct (p a).
Qed.

Section OtherCodecs.

Variable RidToSpatialLayer : string -> TrackInfo -> Z.


(** X21: on a track with a Dynacast controller a codec is announced to
    the controller by the call that creates its receiver and by no other:
    [AddCodec] is called once when [AddReceiver] returns true and not at
    all when it returns false, so further layers of a codec do not
    announce it again. *)
Theorem codec_announced_once_when_created receiver track mid t :
  let out := AddReceiver RidToSpatialLayer receiver track mid t in
  length (List.filter isAddCodec out.2)
  = (if out.1.1 && bool_decide (is_Some (dynacastManager t)) then 1 else 0)%nat.
Proof.
  cbv zeta. apply AddReceiver_paths.
  - done.
  - intros buff rd w Hb Hw. cbn [fst snd].
    match goal with |- context [attachUpTrack ?a ?b ?c ?d ?e] =>
      by destruct (attachUpTrack_more a b c d e) as (_ & _ & _ & ->) end.
  - done.
  - intros buff rd Hb Hw Hp. cbn [fst snd].
    match goal with |- context [attachUpTrack ?a ?b ?c ?d ?e] =>
      destruct (attachUpTrack_more a b c d e) as (_ & _ & _ & ->) end.
    match goal with |- context [setupNewCodec ?a ?b ?c ?d ?e ?f ?g] =>
      destruct (setupNewCodec_more a b c d e f g) as (_ & _ & _ & _ & _ & ->) end.
    destruct (bool_decide (receivers (mtr t) = []) && _), (dynacastManager t) eqn:E; simpl;
      rewrite ?bool_decide_true by done; rewrite ?bool_decide_false by (by intros [? ?]); done.
Qed.

End OtherCodecs.

